(** * ARMA/GARCH pull-model training service

    A shallow embedding of the batch orchestration pipeline of the service
    ([training_service.py], [financial_models.py], [database_retrieval.py])
    and the properties of its specification.

    Python dictionaries are finite maps from strings to Python values,
    floats are IEEE binary64 numbers, exceptions and the effects on the
    outside world (log records, database calls, estimator calls, queued
    background tasks) are threaded through a small state-and-exception
    monad.  The database client, the two estimators and the logarithm are
    collaborators outside the repository: they are variables of the
    development, so every result holds for whatever they answer. *)

From Stdlib Require Import Floats.
From stdpp Require Import gmap strings list pretty.

(** ** Python values *)

Set Warnings "-register-all".

Inductive pyval : Type :=
  | PyNone
  | PyBool (b : bool)
  | PyFloat (f : float)
  | PyStr (s : string)
  | PyDatetime (t : Z)
  | PyList (l : list pyval)
  | PyDict (d : gmap string pyval).

Abbreviation dict := (gmap string pyval).

(** [bool(v)]: the truth value Python's [or], [not] and [if] test. *)
Definition truthy (v : pyval) : bool :=
  match v with
  | PyNone => false
  | PyBool b => b
  | PyFloat f => negb (PrimFloat.eqb f 0%float)
  | PyStr s => negb (String.eqb s "")
  | PyDatetime _ => true
  | PyList l => negb (bool_decide (l = []))
  | PyDict d => negb (bool_decide (d = ∅))
  end.

(** [type(v).__name__], as Python's error messages spell it. *)
Definition type_name (v : pyval) : string :=
  match v with
  | PyNone => "NoneType"
  | PyBool _ => "bool"
  | PyFloat _ => "float"
  | PyStr _ => "str"
  | PyDatetime _ => "datetime.datetime"
  | PyList _ => "list"
  | PyDict _ => "dict"
  end.

(** The message of the [AttributeError] of [v.get] on a value without it. *)
Definition no_get_message (v : pyval) : string :=
  "'" +:+ type_name v +:+ "' object has no attribute 'get'".

(** [d.get(k)] and [d.get(k, default)] on a dictionary. *)
Definition dict_get (d : dict) (k : string) : pyval := default PyNone (d !! k).
Definition dict_get_or (d : dict) (k : string) (dflt : pyval) : pyval :=
  default dflt (d !! k).

(** [params.get(k, default)] on a coefficient series of the estimators. *)
Definition params_get (params : gmap string float) (k : string) (dflt : float) : float :=
  default dflt (params !! k).

(** ** Exceptions, the outside world and the monad *)

(** Every exception the collaborators raise derives from [Exception];
    [HTTPException] is the one the service raises itself. *)
Inductive exn : Type :=
  | PyException (class_name : string) (message : string)
  | HTTPException (status_code : nat) (detail : string).

(** [str(e)] *)
Definition str_exn (e : exn) : string :=
  match e with
  | PyException _ msg => msg
  | HTTPException _ detail => detail
  end.

Inductive result (A : Type) : Type :=
  | Ok (a : A)
  | Raise (e : exn).
Arguments Ok {A} a.
Arguments Raise {A} e.

Inductive level : Type := INFO | WARNING | ERROR.

(** What the service does to its environment, in the order it happens. *)
Inductive event : Type :=
  | Log (lvl : level) (msg : string)
  | Query (sql : string)
  | ArimaFit (returns : list float)
  | GarchFit (returns : list float)
  | Insert (table : string) (data : list (list pyval)) (column_names : list string).

Record world : Type := World {
  trace : list event;          (* events so far, oldest first *)
  ticks : nat;                 (* readings of the clock so far *)
  queued : list (list string)  (* background tasks added, not yet run *)
}.

Definition initial_world : world := World [] 0 [].

(** [emit evs w]: the world after the events [evs] happened in [w]. *)
Definition emit (evs : list event) (w : world) : world :=
  World (trace w ++ evs) (ticks w) (queued w).

(** [advance evs n w]: the world after the events [evs] and [n] readings
    of the clock. *)
Definition advance (evs : list event) (n : nat) (w : world) : world :=
  World (trace w ++ evs) (n + ticks w) (queued w).

Definition M (A : Type) : Type := world → result A * world.

Definition ret {A} (a : A) : M A := λ w, (Ok a, w).
Definition raise {A} (e : exn) : M A := λ w, (Raise e, w).
Definition bind {A B} (m : M A) (k : A → M B) : M B :=
  λ w, match m w with
       | (Ok a, w') => k a w'
       | (Raise e, w') => (Raise e, w')
       end.

(** [try: body except Exception as e: handler(e)] *)
Definition try_except {A} (body : M A) (handler : exn → M A) : M A :=
  λ w, match body w with
       | (Ok a, w') => (Ok a, w')
       | (Raise e, w') => handler e w'
       end.

(** A collaborator's answer enters the monad: a value, or a raise. *)
Definition lift {A} (r : result A) : M A := λ w, (r, w).
Definition tell (ev : event) : M unit := λ w, (Ok tt, emit [ev] w).

Notation "x <- m ;; k" := (bind m (λ x, k))
  (at level 100, m at next level, right associativity, only parsing).
Notation "m ;;; k" := (bind m (λ _, k))
  (at level 100, right associativity, only parsing).

Definition logger_info (msg : string) : M unit := tell (Log INFO msg).
Definition logger_warning (msg : string) : M unit := tell (Log WARNING msg).
Definition logger_error (msg : string) : M unit := tell (Log ERROR msg).

(** The value and the events of a computation started in the initial world. *)
Definition value_of {A} (m : M A) : result A := (m initial_world).1.
Definition events_of {A} (m : M A) : list event := trace (m initial_world).2.

(** The estimator invocations among a list of events. *)
Definition is_estimator_call (ev : event) : bool :=
  match ev with
  | ArimaFit _ | GarchFit _ => true
  | _ => false
  end.
Definition estimator_calls (evs : list event) : list event :=
  List.filter is_estimator_call evs.

Definition is_insert (ev : event) : bool :=
  match ev with
  | Insert _ _ _ => true
  | _ => false
  end.
Definition inserts (evs : list event) : list event :=
  List.filter is_insert evs.

(** [str(v)] as an f-string formats it.  The only value the service ever
    formats is the error message of a failed fit, a string; the [repr] of
    the other kinds of value is not needed. *)
Definition py_str (v : pyval) : string :=
  match v with
  | PyNone => "None"
  | PyBool true => "True"
  | PyBool false => "False"
  | PyStr s => s
  | _ => "<object>"
  end.

(** ** The resolution policy, as the specification words it *)

(** First match wins: the first candidate that is there and truthy, or
    the default.  A candidate that is absent reads as [None]; a zero is
    falsy, so it counts as absent. *)
Fixpoint first_match (candidates : list pyval) (dflt : pyval) : pyval :=
  match candidates with
  | [] => dflt
  | c :: candidates' => if truthy c then c else first_match candidates' dflt
  end.



(** The value under the first of the names the series has, or the default. *)
Fixpoint first_present (params : gmap string float) (names : list string) (dflt : float)
  : float :=
  match names with
  | [] => dflt
  | name :: names' =>
      match params !! name with
      | Some x => x
      | None => first_present params names' dflt
      end
  end.

(** Each of the keys is absent from the mapping or holds a float. *)
Definition numeric_at (d : dict) (keys : list string) : Prop :=
  Forall (λ k, d !! k = None ∨ ∃ f, d !! k = Some (PyFloat f)) keys.

(** The value a sub-mapping carries for a coefficient known under two names. *)
Definition carried (sub : dict) (k1 k2 : string) : option pyval :=
  match sub !! k1 with
  | Some v => Some v
  | None => sub !! k2
  end.

Definition set_field (k : string) (v : option pyval) (d : dict) : dict :=
  match v with
  | Some x => <[k := x]> d
  | None => delete k d
  end.

(** The flattened-form input that carries the values of a nested-form one:
    the sub-mappings are gone, their values sit under the flattened keys. *)
Definition flattened (metrics arma garch : dict) : dict :=
  set_field "ar_coeff" (carried arma "ar_coef" "ar_coeff")
    (set_field "ma_coeff" (carried arma "ma_coef" "ma_coeff")
       (set_field "garch_volatility" (carried garch "last_volatility" "garch_volatility")
          (delete "arma" (delete "garch" metrics)))).

(** The two names of a coefficient, where both are given, give one value. *)
Definition variants_agree (sub : dict) (k1 k2 : string) : Prop :=
  ∀ x y, sub !! k1 = Some x → sub !! k2 = Some y → x = y.

(** An input that gives its coefficients in nested form only. *)
Definition nested_only (metrics arma garch : dict) : Prop :=
  metrics !! "arma" = Some (PyDict arma)
  ∧ metrics !! "garch" = Some (PyDict garch)
  ∧ metrics !! "ar_coeff" = None
  ∧ metrics !! "ma_coeff" = None
  ∧ metrics !! "garch_volatility" = None
  ∧ variants_agree arma "ar_coef" "ar_coeff"
  ∧ variants_agree arma "ma_coef" "ma_coeff"
  ∧ variants_agree garch "last_volatility" "garch_volatility".

(** How the loops record a symbol in the log: a skipped one by a warning
    "Skipping <symbol>: ...", a failed training by an error
    "Training failed for <symbol>: ...". *)
Definition recorded_as_skipped (symbol : string) (evs : list event) : bool :=
  existsb (λ ev, match ev with
                 | Log WARNING msg => String.prefix ("Skipping " +:+ symbol +:+ ":") msg
                 | _ => false
                 end) evs.
Definition recorded_as_training_failure (symbol : string) (evs : list event) : bool :=
  existsb (λ ev, match ev with
                 | Log ERROR msg =>
                     String.prefix ("Training failed for " +:+ symbol +:+ ":") msg
                 | _ => false
                 end) evs.

(** The record an insert writes: its column names paired with its row. *)
Definition stored_record (ev : event) : dict :=
  match ev with
  | Insert _ [row] column_names => list_to_map (zip column_names row)
  | _ => ∅
  end.

(** ** A concrete environment

    A small database and two estimators to run the service on. *)

Module Demo.

Definition get_client : result unit := Ok tt.

Fixpoint float_of_nat (n : nat) : float :=
  match n with
  | O => 0%float
  | S k => PrimFloat.add 1%float (float_of_nat k)
  end.

(** One-column rows with the prices [base], [base + 1], ... *)
Definition rising (base : float) (n : nat) : list (list float) :=
  (λ i, [PrimFloat.add base (float_of_nat i)]) <$> seq 0 n.

(** AAPL has 12 prices, EDGE 10, ZZZZ 5, XYZ 12 on which the estimator
    fails; the query for DOWN fails; no other symbol has data. *)
Definition query (sql : string) : result (list (list float)) :=
  if String.eqb sql "SELECT price FROM stock_prices WHERE symbol = 'AAPL' ORDER BY timestamp ASC"
  then Ok (rising 100%float 12)
  else if String.eqb sql "SELECT price FROM stock_prices WHERE symbol = 'EDGE' ORDER BY timestamp ASC"
  then Ok (rising 100%float 10)
  else if String.eqb sql "SELECT price FROM stock_prices WHERE symbol = 'ZZZZ' ORDER BY timestamp ASC"
  then Ok (rising 100%float 5)
  else if String.eqb sql "SELECT price FROM stock_prices WHERE symbol = 'XYZ' ORDER BY timestamp ASC"
  then Ok (rising 200%float 12)
  else if String.eqb sql "SELECT price FROM stock_prices WHERE symbol = 'DOWN' ORDER BY timestamp ASC"
  then Raise (PyException "OperationalError" "connection refused")
  else Ok [].

(** The stored metrics, whatever the query: two rows, the newer first. *)
Definition latest_rows (sql : string) : result (list (list pyval)) :=
  Ok [[PyFloat 0.5%float; PyFloat (-0.25)%float; PyFloat 1.25%float;
       PyDatetime 1700000000];
      [PyFloat 0.25%float; PyFloat 0%float; PyFloat 1%float; PyDatetime 1600000000]].

(** The store refuses every write. *)
Definition insert_fails (table : string) (data : list (list pyval)) (columns : list string)
  : result unit :=
  Raise (PyException "DatabaseError" "table is read-only").

Definition insert_ok (table : string) (data : list (list pyval)) (columns : list string)
  : result unit :=
  Ok tt.

Definition clock (n : nat) : Z := 1700000000 + Z.of_nat n.

(** A stand-in for the logarithm: its tangent at 1, a NaN at a NaN. *)
Definition log (x : float) : float :=
  if PrimFloat.is_nan x then nan else PrimFloat.sub x 1%float.

(** A fit result in nested form, as a test double of the fitter hands it over. *)
Definition nested_metrics : dict :=
  <["success" := PyBool true]>
  (<["arma" := PyDict (<["ar_coef" := PyFloat 0.5%float]>
                       (<["ma_coef" := PyFloat (-0.25)%float]> ∅))]>
  (<["garch" := PyDict (<["last_volatility" := PyFloat 1.25%float]> ∅)]> ∅)).




Definition arima (returns : list float) : result (gmap string float) :=
  match returns with
  | r :: _ =>
      if PrimFloat.ltb r 0.75%float
      then Raise (PyException "LinAlgError" "Schur decomposition solver error.")
      else Ok (<["ar.L1" := 0.5%float]> (<["ma.L1" := (-0.25)%float]> (<["const" := 0.125%float]> ∅)))
  | [] => Raise (PyException "ValueError" "empty series")
  end.

Definition garch (returns : list float) : result (gmap string float * list float) :=
  Ok (<["omega" := 0.0625%float]> (<["alpha[1]" := 0.25%float]> (<["beta[1]" := 0.5%float]> ∅)),
      [1.5%float; 1.25%float]).

End Demo.

(** ** The service *)

Section Service.

(** *** Collaborators outside the repository *)

(** [clickhouse_connect.get_client(host=..., port=...)]: a client, or the
    exception of a refused connection.  The host and the port are fixed;
    the answer is taken to be the same at every attempt of a run. *)
Variable clickhouse_get_client : result unit.
(** [client.query(sql).result_rows] *)
Variable client_query : string → result (list (list float)).
(** [client.query(sql).result_rows] of a query on the stored metrics, whose
    rows hold cells of several kinds *)
Variable client_query_rows : string → result (list (list pyval)).
(** [client.insert(table=..., data=..., column_names=...)] *)
Variable client_insert : string → list (list pyval) → list string → result unit.
(** [datetime.now()], at its n-th reading *)
Variable clock : nat → Z.
(** [np.log] on one float *)
Variable np_log : float → float.
(** [ARIMA(returns, order=(1, 0, 1)).fit().params] *)
Variable arima_fit_params : list float → result (gmap string float).
(** [arch_model(returns, vol="Garch", p=1, q=1, dist="Normal").fit(disp="off")]:
    its [params] and its [conditional_volatility]. *)
Variable garch_fit : list float → result (gmap string float * list float).

(** The logarithm of a NaN is a NaN. *)
Hypothesis np_log_nan : ∀ x, PrimFloat.is_nan x = true → PrimFloat.is_nan (np_log x) = true.

(** *** database_retrieval.py *)

Definition get_db_client : M unit := lift clickhouse_get_client.

Definition datetime_now : M pyval :=
  λ w, (Ok (PyDatetime (clock (ticks w))), World (trace w) (S (ticks w)) (queued w)).

(** [row[0]] on a row of the answer, a tuple *)
Definition row_0 (row : list float) : result float :=
  match row with
  | x :: _ => Ok x
  | [] => Raise (PyException "IndexError" "tuple index out of range")
  end.

(** [[row[0] for row in rows]] *)
Fixpoint first_column (rows : list (list float)) : result (list float) :=
  match rows with
  | [] => Ok []
  | row :: rows' =>
      match row_0 row with
      | Raise e => Raise e
      | Ok x =>
          match first_column rows' with
          | Raise e => Raise e
          | Ok xs => Ok (x :: xs)
          end
      end
  end.

Definition price_query (symbol : string) : string :=
  "SELECT price FROM stock_prices WHERE symbol = '" +:+ symbol
    +:+ "' ORDER BY timestamp ASC".

Definition fetch_price_history (symbol : string) : M (list float) :=
  try_except
    (client <- get_db_client ;;
     let query := price_query symbol in
     tell (Query query) ;;;
     result_rows <- lift (client_query query) ;;
     prices <- lift (first_column result_rows) ;;
     ret prices)
    (λ e,
       logger_error ("Error fetching data for " +:+ symbol +:+ ": " +:+ str_exn e) ;;;
       ret []).

(** [a or b], with [b] evaluated only when [a] is falsy. *)
Definition py_or (a : pyval) (b : M pyval) : M pyval :=
  if truthy a then ret a else b.

(** [v.get(k)] on a value that need not be a dictionary. *)
Definition attr_get (v : pyval) (k : string) : M pyval :=
  match v with
  | PyDict d => ret (dict_get d k)
  | _ => raise (PyException "AttributeError" (no_get_message v))
  end.

(** The cascade [metrics.get(flat) or sub.get(k1) or sub.get(k2) or 0.0]. *)
Definition resolve (metrics : dict) (sub : pyval) (flat k1 k2 : string) : M pyval :=
  py_or (dict_get metrics flat)
    (x1 <- attr_get sub k1 ;;
     py_or x1
       (x2 <- attr_get sub k2 ;;
        py_or x2 (ret (PyFloat 0%float)))).

Definition metric_columns : list string :=
  ["timestamp"; "symbol"; "ar_param"; "ma_param"; "volatility"].

(** The part of [save_model_results] between the client and the insert:
    the three resolved fields. *)
Definition resolve_metrics (metrics : dict) : M (pyval * pyval * pyval) :=
  let arma := dict_get_or metrics "arma" (PyDict ∅) in
  let garch := dict_get_or metrics "garch" (PyDict ∅) in
  ar_coeff <- resolve metrics arma "ar_coeff" "ar_coef" "ar_coeff" ;;
  ma_coeff <- resolve metrics arma "ma_coeff" "ma_coef" "ma_coeff" ;;
  garch_volatility <-
    resolve metrics garch "garch_volatility" "last_volatility" "garch_volatility" ;;
  ret (ar_coeff, ma_coeff, garch_volatility).

Definition save_model_results (symbol : string) (metrics : dict) : M unit :=
  try_except
    (client <- get_db_client ;;
     fields <- resolve_metrics metrics ;;
     let '(ar_coeff, ma_coeff, garch_volatility) := fields in
     now <- datetime_now ;;
     let row := [now; PyStr symbol; ar_coeff; ma_coeff; garch_volatility] in
     tell (Insert "model_metrics" [row] metric_columns) ;;;
     lift (client_insert "model_metrics" [row] metric_columns) ;;;
     logger_info ("Stored metrics for " +:+ symbol +:+ " in ClickHouse."))
    (λ e,
       logger_error
         ("Error saving model results for " +:+ symbol +:+ ": " +:+ str_exn e)).

(** The columns [get_latest_metrics] selects, in the order of its query. *)
Definition latest_columns : list string :=
  ["ar_param"; "ma_param"; "volatility"; "timestamp"].

Definition newline : string := String (Ascii.ascii_of_nat 10) "".

Definition latest_query (symbol : string) : string :=
  newline
    +:+ "            SELECT " +:+ String.concat ", " latest_columns +:+ " " +:+ newline
    +:+ "            FROM model_metrics " +:+ newline
    +:+ "            WHERE symbol = '" +:+ symbol +:+ "' " +:+ newline
    +:+ "            ORDER BY timestamp DESC " +:+ newline
    +:+ "            LIMIT 1" +:+ newline
    +:+ "        ".

(** [seq[i]] on a sequence of the given kind, a list or a tuple *)
Definition item_at {A} (kind : string) (seq : list A) (i : nat) : result A :=
  match seq !! i with
  | Some x => Ok x
  | None => Raise (PyException "IndexError" (kind +:+ " index out of range"))
  end.

(** The value is [None] or the dictionary of the latest metrics. *)
Definition get_latest_metrics (symbol : string) : M pyval :=
  try_except
    (client <- get_db_client ;;
     let query := latest_query symbol in
     tell (Query query) ;;;
     result_rows <- lift (client_query_rows query) ;;
     if bool_decide (result_rows = []) then
       ret PyNone
     else
       row <- lift (item_at "list" result_rows 0) ;;
       ar_coeff <- lift (item_at "tuple" row 0) ;;
       ma_coeff <- lift (item_at "tuple" row 1) ;;
       garch_volatility <- lift (item_at "tuple" row 2) ;;
       calculated_at <- lift (item_at "tuple" row 3) ;;
       ret (PyDict (<["calculated_at" := calculated_at]>
                    (<["garch_volatility" := garch_volatility]>
                    (<["ma_coeff" := ma_coeff]>
                    (<["ar_coeff" := ar_coeff]>
                    (<["symbol" := PyStr symbol]> ∅)))))))
    (λ e,
       logger_error ("Error fetching metrics for " +:+ symbol +:+ ": " +:+ str_exn e) ;;;
       ret PyNone).

(** *** financial_models.py *)

(** [series.shift(1)]: a NaN in front, the last observation dropped. *)
Definition shift_1 (series : list float) : list float :=
  take (length series) (nan :: series).

(** [100 * np.log(price_series / price_series.shift(1)).dropna()]: the
    ratio to the previous price, its logarithm, the NaNs dropped, times
    100.  On floats none of this raises: a division by zero or the
    logarithm of a negative number is an infinity or a NaN. *)
Definition log_returns (prices : list float) : list float :=
  let price_series := prices in
  let ratio := zip_with PrimFloat.div price_series (shift_1 price_series) in
  let dropna := List.filter (λ x, negb (PrimFloat.is_nan x)) (np_log <$> ratio) in
  PrimFloat.mul 100%float <$> dropna.

(** [series.iloc[-1]] *)
Definition iloc_last (series : list float) : result float :=
  match last series with
  | Some x => Ok x
  | None =>
      Raise (PyException "IndexError" "single positional indexer is out-of-bounds")
  end.

Definition initial_results : dict :=
  <["garch_volatility" := PyFloat 0%float]>
  (<["beta" := PyFloat 0%float]>
  (<["alpha" := PyFloat 0%float]>
  (<["omega" := PyFloat 0%float]>
  (<["const" := PyFloat 0%float]>
  (<["ma_coeff" := PyFloat 0%float]>
  (<["ar_coeff" := PyFloat 0%float]>
  (<["success" := PyBool true]> ∅))))))).

Definition failure (message : string) : dict :=
  <["success" := PyBool false]> (<["error" := PyStr message]> ∅).

Definition train_and_extract_params (prices : list float) : M dict :=
  let returns := log_returns prices in
  let results := initial_results in
  try_except
    (if length returns <? 10 then
       ret (failure "Not enough return observations to train models")
     else
       tell (ArimaFit returns) ;;;
       arma_params <- lift (arima_fit_params returns) ;;
       let results := <["ar_coeff" := PyFloat (params_get arma_params "ar.L1" 0%float)]> results in
       let results := <["ma_coeff" := PyFloat (params_get arma_params "ma.L1" 0%float)]> results in
       let results := <["const" := PyFloat (params_get arma_params "const" 0%float)]> results in
       tell (GarchFit returns) ;;;
       garch <- lift (garch_fit returns) ;;
       let '(garch_params, conditional_volatility) := garch in
       let results := <["omega" := PyFloat (params_get garch_params "omega" 0%float)]> results in
       let results :=
         <["alpha" := PyFloat (params_get garch_params "alpha[1]"
                                 (params_get garch_params "alpha" 0%float))]> results in
       let results :=
         <["beta" := PyFloat (params_get garch_params "beta[1]"
                                (params_get garch_params "beta" 0%float))]> results in
       volatility <- lift (iloc_last conditional_volatility) ;;
       let results := <["garch_volatility" := PyFloat volatility]> results in
       ret results)
    (λ e, ret (failure (str_exn e))).

(** *** training_service.py *)

(** The loop of [process_batch_logic]; [results_summary] is the list the
    loop appends to. *)
Fixpoint process_batch_loop (symbols : list string) (results_summary : list dict)
  : M (list dict) :=
  match symbols with
  | [] => ret results_summary
  | symbol :: symbols' =>
      prices <- fetch_price_history symbol ;;
      if bool_decide (prices = []) then
        logger_warning ("Skipping " +:+ symbol +:+ ": No price data found.") ;;;
        process_batch_loop symbols' results_summary
      else if length prices <? 10 then
        logger_warning
          ("Skipping " +:+ symbol +:+ ": Not enough price points ("
             +:+ pretty (length prices) +:+ ") to train models.") ;;;
        process_batch_loop symbols' results_summary
      else
        model_result <- train_and_extract_params prices ;;
        if truthy (dict_get model_result "success") then
          save_model_results symbol model_result ;;;
          process_batch_loop symbols'
            (results_summary ++ [ {[ symbol := PyStr "Success" ]} ])
        else
          logger_error
            ("Training failed for " +:+ symbol +:+ ": "
               +:+ py_str (dict_get model_result "error")) ;;;
          process_batch_loop symbols' results_summary
  end.

Definition process_batch_logic (symbols : list string) : M unit :=
  results_summary <- process_batch_loop symbols [] ;;
  logger_info
    ("Batch complete. Processed " +:+ pretty (length results_summary) +:+ " symbols.").

(** The loop of [process_batch_logic_sync]; [all_metrics] is the list the
    loop appends to. *)
Fixpoint process_batch_loop_sync (symbols : list string) (all_metrics : list dict)
  : M (list dict) :=
  match symbols with
  | [] => ret all_metrics
  | symbol :: symbols' =>
      prices <- fetch_price_history symbol ;;
      if bool_decide (prices = []) || (length prices <? 10) then
        logger_warning ("Skipping " +:+ symbol +:+ ": Insufficient price data.") ;;;
        process_batch_loop_sync symbols' all_metrics
      else
        model_result <- train_and_extract_params prices ;;
        if truthy (dict_get model_result "success") then
          let model_result := <["symbol" := PyStr symbol]> model_result in
          process_batch_loop_sync symbols' (all_metrics ++ [model_result])
        else
          logger_error
            ("Training failed for " +:+ symbol +:+ ": "
               +:+ py_str (dict_get model_result "error")) ;;;
          process_batch_loop_sync symbols' all_metrics
  end.

Definition process_batch_logic_sync (symbols : list string) : M (list dict) :=
  all_metrics <- process_batch_loop_sync symbols [] ;;
  logger_info
    ("Batch complete. Processed " +:+ pretty (length all_metrics) +:+ " symbols.") ;;;
  ret all_metrics.

(** [POST /train_sync] *)
Definition trigger_training_sync (payload_symbols : list string) : M dict :=
  if bool_decide (payload_symbols = []) then
    raise (HTTPException 400 "No symbols provided")
  else
    results_summary <- process_batch_logic_sync payload_symbols ;;
    ret (<["results" := PyList (PyDict <$> results_summary)]>
         (<["status" := PyStr "Processing complete"]> ∅)).

(** [background_tasks.add_task(process_batch_logic, symbols)] *)
Definition add_task (symbols : list string) : M unit :=
  λ w, (Ok tt, World (trace w) (ticks w) (queued w ++ [symbols])).

(** [POST /train_batch] *)
Definition trigger_training (payload_symbols : list string) : M dict :=
  if bool_decide (payload_symbols = []) then
    raise (HTTPException 400 "No symbols provided")
  else
    add_task payload_symbols ;;;
    ret (<["mode" := PyStr "Pull Architecture"]>
         (<["message" := PyStr ("Queued " +:+ pretty (length payload_symbols)
                                  +:+ " symbols for training.")]>
         (<["status" := PyStr "Batch processing started"]> ∅))).

(** [GET /results/{symbol}] *)
Definition get_model_results (symbol : string) : M dict :=
  data <- get_latest_metrics symbol ;;
  if negb (truthy data) then
    raise (HTTPException 404 ("No model data found for " +:+ symbol +:+ "."))
  else
    ret (<["data" := data]> (<["status" := PyStr "success"]> ∅)).

(** *** What a caller observes *)

(** The Price Source as the orchestrator sees it: the prices
    [fetch_price_history] hands over for a symbol. *)
Definition price_source (symbol : string) : list float :=
  match value_of (fetch_price_history symbol) with
  | Ok prices => prices
  | Raise _ => []
  end.

(** The Model Fitter as the orchestrator sees it: the mapping
    [train_and_extract_params] hands over for a price series. *)
Definition model_fitter (prices : list float) : dict :=
  match value_of (train_and_extract_params prices) with
  | Ok model_result => model_result
  | Raise _ => ∅
  end.

(** The symbol passes the price-count gate: the Price Source has at least
    10 observations for it. *)
Definition has_enough_prices (symbol : string) : bool :=
  10 <=? length (price_source symbol).

(** The symbol passes the price-count gate and its fit reports success. *)
Definition fit_succeeded (symbol : string) : bool :=
  has_enough_prices symbol
  && truthy (dict_get (model_fitter (price_source symbol)) "success").

(** The estimator invocations of the fit of a symbol's prices. *)
Definition fitter_calls (symbol : string) : list event :=
  estimator_calls (events_of (train_and_extract_params (price_source symbol))).

(** The message of the error log of a failed fit. *)
Definition training_failed_message (symbol : string) : string :=
  "Training failed for " +:+ symbol +:+ ": "
    +:+ py_str (dict_get (model_fitter (price_source symbol)) "error").

(** The record of the synchronous response for a symbol. *)
Definition tagged (symbol : string) : dict :=
  <["symbol" := PyStr symbol]> (model_fitter (price_source symbol)).

(** The entry of the batch summary for a symbol. *)
Definition success_entry (symbol : string) : dict := {[ symbol := PyStr "Success" ]}.

(** The seven coefficient fields. *)
Definition coefficient_fields : list string :=
  ["ar_coeff"; "ma_coeff"; "const"; "omega"; "alpha"; "beta"; "garch_volatility"].

(** The shape of a successful fit: the success flag and the seven
    coefficient fields, each a float, and nothing else. *)
Definition fitted_record (d : dict) : Prop :=
  d !! "success" = Some (PyBool true)
  ∧ Forall (λ k, ∃ f, d !! k = Some (PyFloat f)) coefficient_fields
  ∧ dom d = list_to_set ("success" :: coefficient_fields).

(** The symbols of the rows the events write to the store. *)
Definition row_symbol (row : list pyval) : list pyval :=
  match row !! 1 with
  | Some v => [v]
  | None => []
  end.
Definition stored_symbols (evs : list event) : list pyval :=
  flat_map (λ ev, match ev with
                  | Insert _ data _ => flat_map row_symbol data
                  | _ => []
                  end) evs.

(** The message of the warning of a symbol the deferred loop skips. *)
Definition skipped_message (symbol : string) : string :=
  if bool_decide (price_source symbol = [])
  then "Skipping " +:+ symbol +:+ ": No price data found."
  else "Skipping " +:+ symbol +:+ ": Not enough price points ("
         +:+ pretty (length (price_source symbol)) +:+ ") to train models.".

(** The messages of the log records of [save_model_results]. *)
Definition stored_message (symbol : string) : string :=
  "Stored metrics for " +:+ symbol +:+ " in ClickHouse.".
Definition save_error_message (symbol : string) (e : exn) : string :=
  "Error saving model results for " +:+ symbol +:+ ": " +:+ str_exn e.

(** The queries among a list of events. *)
Definition is_query (ev : event) : bool :=
  match ev with
  | Query _ => true
  | _ => false
  end.
Definition queries (evs : list event) : list event := List.filter is_query evs.

(** [x or 0.0] on a float: a zero of either sign becomes 0.0. *)
Definition or_zero (x : float) : float :=
  if PrimFloat.eqb x 0%float then 0%float else x.

(** The SQL projection of a stored record on a list of columns. *)
Definition select_columns (columns : list string) (record : dict) : list pyval :=
  dict_get record <$> columns.

(** The dictionary [get_latest_metrics] makes of the cells of a row, and
    the message of its error log. *)
Definition latest_record (symbol : string) (c0 c1 c2 c3 : pyval) : dict :=
  <["calculated_at" := c3]>
  (<["garch_volatility" := c2]>
  (<["ma_coeff" := c1]>
  (<["ar_coeff" := c0]>
  (<["symbol" := PyStr symbol]> ∅)))).
Definition latest_error_message (symbol : string) (e : exn) : string :=
  "Error fetching metrics for " +:+ symbol +:+ ": " +:+ str_exn e.

(** The events of one symbol in the synchronous loop. *)
Definition sync_events (symbol : string) : list event :=
  events_of (fetch_price_history symbol)
  ++ (if has_enough_prices symbol then
        events_of (train_and_extract_params (price_source symbol))
        ++ (if truthy (dict_get (model_fitter (price_source symbol)) "success")
            then []
            else [Log ERROR (training_failed_message symbol)])
      else [Log WARNING ("Skipping " +:+ symbol +:+ ": Insufficient price data.")]).

(** The symbol list with a symbol struck out. *)
Definition without (symbol : string) (symbols : list string) : list string :=
  List.filter (λ x, negb (String.eqb x symbol)) symbols.

(** ** Properties *)

#[local] Arguments String.append : simpl never.

Create HintDb monad_ops.
#[local] Hint Unfold bind ret raise try_except lift tell
  logger_info logger_warning logger_error get_db_client : monad_ops.

Lemma emit_nil w : emit [] w = w.
Proof. destruct w; unfold emit; simpl. by rewrite app_nil_r. Qed.

Lemma emit_emit evs1 evs2 w : emit evs2 (emit evs1 w) = emit (evs1 ++ evs2) w.
Proof. unfold emit; simpl. by rewrite app_assoc. Qed.

Lemma trace_emit evs w : trace (emit evs w) = trace w ++ evs.
Proof. reflexivity. Qed.

Lemma estimator_calls_app evs1 evs2 :
  estimator_calls (evs1 ++ evs2) = estimator_calls evs1 ++ estimator_calls evs2.
Proof. apply List.filter_app. Qed.

Lemma inserts_app evs1 evs2 : inserts (evs1 ++ evs2) = inserts evs1 ++ inserts evs2.
Proof. apply List.filter_app. Qed.

Lemma stored_symbols_app evs1 evs2 :
  stored_symbols (evs1 ++ evs2) = stored_symbols evs1 ++ stored_symbols evs2.
Proof. apply flat_map_app. Qed.

(** Normalises the worlds of a goal to a single [emit] on the start world. *)
Ltac norm_world :=
  repeat rewrite emit_emit; simpl app; try rewrite emit_nil.

(** **** The Price Source *)

Lemma fetch_price_history_run symbol w :
  fetch_price_history symbol w
  = (Ok (price_source symbol), emit (events_of (fetch_price_history symbol)) w).
Proof.
  unfold price_source, value_of, events_of, fetch_price_history.
  autounfold with monad_ops.
  destruct clickhouse_get_client as [[]|e]; simpl.
  - destruct (client_query _) as [rows|e]; simpl.
    + destruct (first_column rows) as [prices|e]; simpl; by norm_world.
    + by norm_world.
  - by norm_world.
Qed.

Lemma fetch_events_quiet symbol :
  estimator_calls (events_of (fetch_price_history symbol)) = []
  ∧ inserts (events_of (fetch_price_history symbol)) = []
  ∧ stored_symbols (events_of (fetch_price_history symbol)) = [].
Proof.
  unfold events_of, fetch_price_history.
  autounfold with monad_ops.
  destruct clickhouse_get_client as [[]|e]; simpl; [|done].
  destruct (client_query _) as [rows|e]; simpl; [|done].
  destruct (first_column rows) as [prices|e]; done.
Qed.

(** **** The Model Fitter *)

Lemma train_and_extract_params_run prices w :
  train_and_extract_params prices w
  = (Ok (model_fitter prices), emit (events_of (train_and_extract_params prices)) w).
Proof.
  unfold model_fitter, value_of, events_of, train_and_extract_params.
  autounfold with monad_ops.
  destruct (length (log_returns prices) <? 10); simpl; [by norm_world|].
  destruct (arima_fit_params _) as [arma_params|e]; simpl; [|by norm_world].
  destruct (garch_fit _) as [[garch_params vol]|e]; simpl; [|by norm_world].
  destruct (iloc_last vol) as [v|e]; simpl; by norm_world.
Qed.

(** A fit either fills the whole record or hands over a failure. *)
Lemma model_fitter_cases prices :
  fitted_record (model_fitter prices) ∨ ∃ msg, model_fitter prices = failure msg.
Proof.
  unfold model_fitter, value_of, train_and_extract_params.
  autounfold with monad_ops.
  destruct (length (log_returns prices) <? 10); simpl; [by eauto|].
  destruct (arima_fit_params _) as [arma_params|e]; simpl; [|by eauto].
  destruct (garch_fit _) as [[garch_params vol]|e]; simpl; [|by eauto].
  destruct (iloc_last vol) as [v|e]; simpl; [|by eauto].
  left. unfold fitted_record, initial_results, coefficient_fields.
  split; [by simplify_map_eq|]. split.
  - repeat (apply Forall_cons; split; [eexists; by simplify_map_eq|]).
    constructor.
  - rewrite !dom_insert_L, dom_empty_L. set_solver.
Qed.

Lemma failure_not_success msg : truthy (dict_get (failure msg) "success") = false.
Proof. unfold failure, dict_get. by simplify_map_eq. Qed.


Lemma fitted_record_no_error d : fitted_record d → d !! "error" = None.
Proof.
  intros (_ & _ & Hdom). apply not_elem_of_dom. rewrite Hdom.
  unfold coefficient_fields. simpl.
  rewrite !elem_of_union, !elem_of_singleton, elem_of_empty. intuition discriminate.
Qed.

Lemma model_fitter_success prices :
  truthy (dict_get (model_fitter prices) "success") = true →
  fitted_record (model_fitter prices).
Proof.
  destruct (model_fitter_cases prices) as [H|[msg H]]; [done|].
  rewrite H, failure_not_success. done.
Qed.


Lemma train_events_quiet prices :
  inserts (events_of (train_and_extract_params prices)) = []
  ∧ stored_symbols (events_of (train_and_extract_params prices)) = [].
Proof.
  unfold events_of, train_and_extract_params.
  autounfold with monad_ops.
  destruct (length (log_returns prices) <? 10); simpl; [done|].
  destruct (arima_fit_params _) as [arma_params|e]; simpl; [|done].
  destruct (garch_fit _) as [[garch_params vol]|e]; simpl; [|done].
  destruct (iloc_last vol) as [v|e]; done.
Qed.

(** Too few returns: no estimator runs and the fit hands over the
    failure of the length check. *)
Lemma train_too_few_returns prices :
  length (log_returns prices) < 10 →
  model_fitter prices = failure "Not enough return observations to train models"
  ∧ events_of (train_and_extract_params prices) = [].
Proof.
  intros Hlen.
  unfold model_fitter, value_of, events_of, train_and_extract_params.
  autounfold with monad_ops.
  destruct (Nat.ltb_spec (length (log_returns prices)) 10); [done|lia].
Qed.

(** **** The synchronous loop, one iteration at a time *)

Lemma sync_gate (prices : list float) :
  bool_decide (prices = []) || (length prices <? 10) = (length prices <? 10).
Proof. destruct prices; [done|]. by rewrite bool_decide_eq_false_2. Qed.

Lemma sync_iteration_skipped symbol rest all_metrics w :
  has_enough_prices symbol = false →
  process_batch_loop_sync (symbol :: rest) all_metrics w
  = process_batch_loop_sync rest all_metrics
      (emit (events_of (fetch_price_history symbol)
               ++ [Log WARNING ("Skipping " +:+ symbol +:+ ": Insufficient price data.")]) w).
Proof.
  unfold has_enough_prices. intros Hgate.
  cbn [process_batch_loop_sync]. unfold bind at 1.
  rewrite fetch_price_history_run, sync_gate.
  destruct (Nat.ltb_spec (length (price_source symbol)) 10) as [_|Hge].
  - unfold bind, logger_warning, tell. by norm_world.
  - apply Nat.leb_gt in Hgate. lia.
Qed.

Lemma sync_iteration_success symbol rest all_metrics w :
  fit_succeeded symbol = true →
  process_batch_loop_sync (symbol :: rest) all_metrics w
  = process_batch_loop_sync rest (all_metrics ++ [tagged symbol])
      (emit (events_of (fetch_price_history symbol)
               ++ events_of (train_and_extract_params (price_source symbol))) w).
Proof.
  unfold fit_succeeded, has_enough_prices. intros [Hgate Hok]%andb_true_iff.
  cbn [process_batch_loop_sync]. unfold bind at 1.
  rewrite fetch_price_history_run, sync_gate.
  destruct (Nat.ltb_spec (length (price_source symbol)) 10) as [Hlt|_].
  - apply Nat.leb_le in Hgate. lia.
  - unfold bind at 1. rewrite train_and_extract_params_run, Hok. by norm_world.
Qed.

Lemma sync_iteration_failed symbol rest all_metrics w :
  has_enough_prices symbol = true →
  fit_succeeded symbol = false →
  process_batch_loop_sync (symbol :: rest) all_metrics w
  = process_batch_loop_sync rest all_metrics
      (emit (events_of (fetch_price_history symbol)
               ++ events_of (train_and_extract_params (price_source symbol))
               ++ [Log ERROR (training_failed_message symbol)]) w).
Proof.
  unfold fit_succeeded. intros Hgate Hfail. rewrite Hgate in Hfail. simpl in Hfail.
  unfold has_enough_prices in Hgate.
  cbn [process_batch_loop_sync]. unfold bind at 1.
  rewrite fetch_price_history_run, sync_gate.
  destruct (Nat.ltb_spec (length (price_source symbol)) 10) as [Hlt|_].
  - apply Nat.leb_le in Hgate. lia.
  - unfold bind at 1. rewrite train_and_extract_params_run, Hfail.
    unfold bind, logger_error, tell, training_failed_message.
    norm_world. by rewrite <- ?app_assoc.
Qed.

(** The whole synchronous loop: what it returns, which estimators it
    runs, and that it writes nothing to the store. *)
Lemma process_batch_loop_sync_run symbols all_metrics w :
  ∃ evs,
    process_batch_loop_sync symbols all_metrics w
    = (Ok (all_metrics ++ (tagged <$> List.filter fit_succeeded symbols)), emit evs w)
    ∧ estimator_calls evs = flat_map fitter_calls (List.filter has_enough_prices symbols)
    ∧ inserts evs = [].
Proof.
  revert all_metrics w. induction symbols as [|symbol rest IH]; intros all_metrics w.
  - exists []. simpl. unfold ret. by rewrite emit_nil, app_nil_r.
  - destruct (fetch_events_quiet symbol) as (Hfe & Hfi & _).
    destruct (train_events_quiet (price_source symbol)) as (Hti & _).
    simpl List.filter.
    destruct (has_enough_prices symbol) eqn:Hgate.
    + destruct (fit_succeeded symbol) eqn:Hfit.
      * rewrite sync_iteration_success by done.
        destruct (IH (all_metrics ++ [tagged symbol])
                    (emit (events_of (fetch_price_history symbol)
                             ++ events_of (train_and_extract_params (price_source symbol))) w))
          as (evs & Hrun & Hest & Hins).
        eexists. rewrite Hrun, emit_emit. split; [|split].
        -- by rewrite <- app_assoc.
        -- rewrite !estimator_calls_app, Hfe, Hest. done.
        -- rewrite !inserts_app, Hfi, Hti, Hins. done.
      * rewrite sync_iteration_failed by done.
        destruct (IH all_metrics
                    (emit (events_of (fetch_price_history symbol)
                             ++ events_of (train_and_extract_params (price_source symbol))
                             ++ [Log ERROR (training_failed_message symbol)]) w))
          as (evs & Hrun & Hest & Hins).
        eexists. rewrite Hrun, emit_emit. split; [|split].
        -- done.
        -- rewrite !estimator_calls_app, Hfe, Hest. simpl.
           unfold fitter_calls. by rewrite app_nil_r.
        -- rewrite !inserts_app, Hfi, Hti, Hins. done.
    + assert (fit_succeeded symbol = false) as ->.
      { unfold fit_succeeded. by rewrite Hgate. }
      rewrite sync_iteration_skipped by done.
      destruct (IH all_metrics
                  (emit (events_of (fetch_price_history symbol)
                           ++ [Log WARNING ("Skipping " +:+ symbol
                                              +:+ ": Insufficient price data.")]) w))
        as (evs & Hrun & Hest & Hins).
      eexists. rewrite Hrun, emit_emit. split; [|split].
      -- done.
      -- rewrite !estimator_calls_app, Hfe, Hest. done.
      -- rewrite !inserts_app, Hfi, Hins. done.
Qed.

Lemma process_batch_logic_sync_run symbols w :
  ∃ evs,
    process_batch_logic_sync symbols w
    = (Ok (tagged <$> List.filter fit_succeeded symbols), emit evs w)
    ∧ estimator_calls evs = flat_map fitter_calls (List.filter has_enough_prices symbols)
    ∧ inserts evs = [].
Proof.
  destruct (process_batch_loop_sync_run symbols [] w) as (evs & Hrun & Hest & Hins).
  unfold process_batch_logic_sync, bind, logger_info, tell, ret.
  rewrite Hrun. simpl. eexists. rewrite emit_emit. split; [done|].
  rewrite estimator_calls_app, inserts_app, Hest, Hins. simpl.
  by rewrite app_nil_r.
Qed.

Lemma tagged_symbol symbol : tagged symbol !! "symbol" = Some (PyStr symbol).
Proof. unfold tagged. by simplify_map_eq. Qed.

Lemma tagged_fitted symbol :
  fit_succeeded symbol = true →
  tagged symbol !! "success" = Some (PyBool true)
  ∧ tagged symbol !! "error" = None
  ∧ Forall (λ k, ∃ f, tagged symbol !! k = Some (PyFloat f)) coefficient_fields
  ∧ dom (tagged symbol) = list_to_set ("symbol" :: "success" :: coefficient_fields).
Proof.
  unfold fit_succeeded. intros [_ Hok]%andb_true_iff.
  pose proof (model_fitter_success _ Hok) as Hrec.
  pose proof (fitted_record_no_error _ Hrec) as Herr.
  destruct Hrec as (Hs & Hfields & Hdom).
  unfold tagged. split; [|split; [|split]].
  - by rewrite lookup_insert_ne.
  - by rewrite lookup_insert_ne.
  - rewrite Forall_forall in Hfields. apply Forall_forall. intros k Hk.
    destruct (Hfields k Hk) as [f Hf]. exists f.
    rewrite lookup_insert_ne; [done|]. intros <-.
    unfold coefficient_fields in Hk.
    repeat (apply elem_of_cons in Hk as [Hk|Hk]; [discriminate|]).
    by apply elem_of_nil in Hk.
  - rewrite dom_insert_L, Hdom. done.
Qed.

(** **** The synchronous mode *)

(** C1: for every symbol list, the synchronous batch returns exactly the
    records of the symbols whose fit succeeded, each tagged with its
    symbol, in the order of the symbol list; skipped and failed symbols
    are left out and no returned record is an error entry.  The endpoint
    hands the same list over under "results". *)
Theorem sync_batch_returns_successful_records symbols w :
  ∃ w',
    process_batch_logic_sync symbols w
    = (Ok (tagged <$> List.filter fit_succeeded symbols), w')
    ∧ Forall (λ r, r !! "error" = None ∧ r !! "success" = Some (PyBool true))
        (tagged <$> List.filter fit_succeeded symbols)
    ∧ (λ r : dict, r !! "symbol") <$> (tagged <$> List.filter fit_succeeded symbols)
      = (λ symbol, Some (PyStr symbol)) <$> List.filter fit_succeeded symbols
    ∧ trigger_training_sync symbols w
      = if bool_decide (symbols = [])
        then (Raise (HTTPException 400 "No symbols provided"), w)
        else (Ok (<["results" :=
                      PyList (PyDict <$> (tagged <$> List.filter fit_succeeded symbols))]>
                  (<["status" := PyStr "Processing complete"]> ∅)), w').
Proof.
  destruct (process_batch_logic_sync_run symbols w) as (evs & Hrun & _).
  exists (emit evs w). split; [done|]. split; [|split].
  - apply Forall_fmap, Forall_forall. intros symbol Hin.
    apply list_elem_of_In, List.filter_In in Hin as [_ Hfit].
    destruct (tagged_fitted symbol Hfit) as (? & ? & _). done.
  - clear Hrun. induction (List.filter fit_succeeded symbols) as [|symbol l IH]; [done|].
    rewrite !fmap_cons. f_equal; [apply tagged_symbol|apply IH].
  - unfold trigger_training_sync. case_bool_decide; [done|].
    unfold bind, ret. by rewrite Hrun.
Qed.


(** C9: the empty symbol list is refused by both endpoints with the
    client error 400, and the world is left as it was: no query was sent,
    nothing was logged, no task was queued. *)
Theorem empty_symbol_list_rejected w :
  trigger_training_sync [] w = (Raise (HTTPException 400 "No symbols provided"), w)
  ∧ trigger_training [] w = (Raise (HTTPException 400 "No symbols provided"), w).
Proof. split; reflexivity. Qed.

(** C10: for every symbol whose fit succeeds the synchronous batch
    returns a record, and the records are exactly these, in order: each
    is the result mapping of the fit of its symbol with the key "symbol"
    added; it maps "success" to True, "symbol" to the symbol, each of the
    seven coefficient fields to a float, and has no other key; the
    synchronous path resolves nothing further and writes nothing to the
    store. *)
Theorem sync_record_is_fitter_result symbols w :
  ∃ records w',
    process_batch_logic_sync symbols w = (Ok records, w')
    ∧ records
      = (λ symbol, <["symbol" := PyStr symbol]> (model_fitter (price_source symbol)))
          <$> List.filter fit_succeeded symbols
    ∧ (∀ symbol,
         symbol ∈ symbols →
         fit_succeeded symbol = true →
         <["symbol" := PyStr symbol]> (model_fitter (price_source symbol)) ∈ records)
    ∧ Forall (λ r, ∃ symbol,
                symbol ∈ symbols
                ∧ fit_succeeded symbol = true
                ∧ r = <["symbol" := PyStr symbol]> (model_fitter (price_source symbol))
                ∧ r !! "success" = Some (PyBool true)
                ∧ r !! "symbol" = Some (PyStr symbol)
                ∧ Forall (λ k, ∃ f, r !! k = Some (PyFloat f)) coefficient_fields
                ∧ dom r = list_to_set ("symbol" :: "success" :: coefficient_fields))
        records
    ∧ inserts (trace w') = inserts (trace w).
Proof.
  destruct (process_batch_logic_sync_run symbols w) as (evs & Hrun & _ & Hins).
  eexists _, _. split; [exact Hrun|]. split; [done|]. split; [|split].
  - intros symbol Hin Hfit. apply (list_elem_of_fmap_2 tagged).
    apply list_elem_of_In, List.filter_In. split; [by apply list_elem_of_In|done].
  - apply Forall_fmap, Forall_forall. intros symbol Hin.
    apply list_elem_of_In, List.filter_In in Hin as [Hin Hfit].
    destruct (tagged_fitted symbol Hfit) as (Hs & _ & Hfields & Hdom).
    exists symbol. repeat split; try done.
    + by apply list_elem_of_In.
    + apply tagged_symbol.
  - by rewrite trace_emit, inserts_app, Hins, app_nil_r.
Qed.

(** **** The Result Sink *)

Lemma advance_0 evs w : advance evs 0 w = emit evs w.
Proof. reflexivity. Qed.

Lemma advance_advance evs1 n1 evs2 n2 w :
  advance evs2 n2 (advance evs1 n1 w) = advance (evs1 ++ evs2) (n2 + n1) w.
Proof. unfold advance; simpl. by rewrite app_assoc, Nat.add_assoc. Qed.

Lemma resolve_pure metrics sub flat k1 k2 w :
  resolve metrics sub flat k1 k2 w = (value_of (resolve metrics sub flat k1 k2), w).
Proof.
  unfold value_of, resolve, py_or, attr_get, bind, ret, raise.
  destruct (truthy (dict_get metrics flat)); [done|].
  destruct sub; simpl; try done.
  destruct (truthy (dict_get d k1)); [done|].
  destruct (truthy (dict_get d k2)); done.
Qed.

Lemma resolve_metrics_pure metrics w :
  resolve_metrics metrics w = (value_of (resolve_metrics metrics), w).
Proof.
  unfold value_of, resolve_metrics, bind, ret.
  rewrite !(resolve_pure _ _ "ar_coeff").
  destruct (value_of (resolve _ _ "ar_coeff" _ _)) as [ar_coeff|e]; [|done].
  rewrite !(resolve_pure _ _ "ma_coeff").
  destruct (value_of (resolve _ _ "ma_coeff" _ _)) as [ma_coeff|e]; [|done].
  rewrite !(resolve_pure _ _ "garch_volatility").
  destruct (value_of (resolve _ _ "garch_volatility" _ _)) as [garch_volatility|e]; done.
Qed.

(** The four ways [save_model_results] can go; it returns in each. *)
Lemma save_model_results_run symbol metrics w :
  save_model_results symbol metrics w
  = match clickhouse_get_client with
    | Raise e => (Ok tt, advance [Log ERROR (save_error_message symbol e)] 0 w)
    | Ok _ =>
        match value_of (resolve_metrics metrics) with
        | Raise e => (Ok tt, advance [Log ERROR (save_error_message symbol e)] 0 w)
        | Ok (ar_coeff, ma_coeff, garch_volatility) =>
            let row := [PyDatetime (clock (ticks w)); PyStr symbol;
                        ar_coeff; ma_coeff; garch_volatility] in
            match client_insert "model_metrics" [row] metric_columns with
            | Raise e =>
                (Ok tt, advance [Insert "model_metrics" [row] metric_columns;
                                 Log ERROR (save_error_message symbol e)] 1 w)
            | Ok _ =>
                (Ok tt, advance [Insert "model_metrics" [row] metric_columns;
                                 Log INFO (stored_message symbol)] 1 w)
            end
        end
    end.
Proof.
  unfold save_model_results, save_error_message, stored_message.
  autounfold with monad_ops.
  destruct clickhouse_get_client as [[]|e]; simpl; [|done].
  rewrite resolve_metrics_pure.
  destruct (value_of (resolve_metrics metrics)) as [[[ar_coeff ma_coeff] garch_volatility]|e];
    simpl; [|done].
  destruct (client_insert _ _ _) as [[]|e]; simpl;
    unfold advance, emit; simpl; by rewrite <- app_assoc.
Qed.

Lemma save_model_results_returns symbol metrics w :
  ∃ evs n,
    save_model_results symbol metrics w = (Ok tt, advance evs n w)
    ∧ estimator_calls evs = []
    ∧ (stored_symbols evs = [] ∨ stored_symbols evs = [PyStr symbol])
    ∧ (last evs = Some (Log INFO (stored_message symbol))
       ∨ ∃ e, last evs = Some (Log ERROR (save_error_message symbol e))).
Proof.
  rewrite save_model_results_run.
  destruct clickhouse_get_client as [[]|e]; [|by eauto 10].
  destruct (value_of (resolve_metrics metrics)) as [[[ar_coeff ma_coeff] garch_volatility]|e];
    [|by eauto 10].
  simpl. destruct (client_insert _ _ _) as [[]|e]; by eauto 10.
Qed.

(** **** The deferred loop, one iteration at a time *)

Lemma deferred_iteration_skipped symbol rest results_summary w :
  has_enough_prices symbol = false →
  process_batch_loop (symbol :: rest) results_summary w
  = process_batch_loop rest results_summary
      (emit (events_of (fetch_price_history symbol)
               ++ [Log WARNING (skipped_message symbol)]) w).
Proof.
  unfold has_enough_prices, skipped_message. intros Hgate%Nat.leb_gt.
  cbn [process_batch_loop]. unfold bind at 1.
  rewrite fetch_price_history_run.
  case_bool_decide.
  - unfold bind, logger_warning, tell. by norm_world.
  - destruct (Nat.ltb_spec (length (price_source symbol)) 10) as [_|Hge]; [|lia].
    unfold bind, logger_warning, tell. by norm_world.
Qed.

Lemma enough_prices_not_empty symbol :
  has_enough_prices symbol = true →
  bool_decide (price_source symbol = []) = false
  ∧ (length (price_source symbol) <? 10) = false.
Proof.
  unfold has_enough_prices. intros Hgate%Nat.leb_le. split.
  - apply bool_decide_eq_false_2. intros Hnil. rewrite Hnil in Hgate. simpl in Hgate. lia.
  - apply Nat.ltb_ge. lia.
Qed.

Lemma deferred_iteration_failed symbol rest results_summary w :
  has_enough_prices symbol = true →
  fit_succeeded symbol = false →
  process_batch_loop (symbol :: rest) results_summary w
  = process_batch_loop rest results_summary
      (emit (events_of (fetch_price_history symbol)
               ++ events_of (train_and_extract_params (price_source symbol))
               ++ [Log ERROR (training_failed_message symbol)]) w).
Proof.
  unfold fit_succeeded. intros Hgate Hfail. rewrite Hgate in Hfail. simpl in Hfail.
  destruct (enough_prices_not_empty _ Hgate) as [Hne Hge].
  cbn [process_batch_loop]. unfold bind at 1.
  rewrite fetch_price_history_run, Hne, Hge.
  unfold bind at 1. rewrite train_and_extract_params_run, Hfail.
  unfold bind, logger_error, tell, training_failed_message.
  norm_world. by rewrite <- ?app_assoc.
Qed.

Lemma deferred_iteration_success symbol rest results_summary w :
  fit_succeeded symbol = true →
  process_batch_loop (symbol :: rest) results_summary w
  = bind (save_model_results symbol (model_fitter (price_source symbol)))
      (λ _, process_batch_loop rest (results_summary ++ [success_entry symbol]))
      (emit (events_of (fetch_price_history symbol)
               ++ events_of (train_and_extract_params (price_source symbol))) w).
Proof.
  unfold fit_succeeded. intros [Hgate Hok]%andb_true_iff.
  destruct (enough_prices_not_empty _ Hgate) as [Hne Hge].
  cbn [process_batch_loop]. unfold bind at 1.
  rewrite fetch_price_history_run, Hne, Hge.
  unfold bind at 1. rewrite train_and_extract_params_run, Hok.
  by norm_world.
Qed.

(** The whole deferred loop: its summary, the estimators it runs and the
    symbols of the rows it writes. *)
Lemma process_batch_loop_run symbols results_summary w :
  ∃ evs n,
    process_batch_loop symbols results_summary w
    = (Ok (results_summary ++ (success_entry <$> List.filter fit_succeeded symbols)),
       advance evs n w)
    ∧ estimator_calls evs = flat_map fitter_calls (List.filter has_enough_prices symbols)
    ∧ Forall (λ v, ∃ symbol, v = PyStr symbol ∧ symbol ∈ symbols
                             ∧ fit_succeeded symbol = true)
        (stored_symbols evs).
Proof.
  revert results_summary w.
  induction symbols as [|symbol rest IH]; intros results_summary w.
  - exists [], 0. simpl. unfold ret. rewrite advance_0, emit_nil, app_nil_r.
    repeat split. constructor.
  - destruct (fetch_events_quiet symbol) as (Hfe & _ & Hfs).
    destruct (train_events_quiet (price_source symbol)) as (_ & Hts).
    simpl List.filter.
    destruct (has_enough_prices symbol) eqn:Hgate.
    + destruct (fit_succeeded symbol) eqn:Hfit.
      * rewrite deferred_iteration_success by done. unfold bind.
        destruct (save_model_results_returns symbol (model_fitter (price_source symbol))
                    (emit (events_of (fetch_price_history symbol)
                             ++ events_of (train_and_extract_params (price_source symbol))) w))
          as (evs1 & n1 & -> & Hest1 & Hsym1 & _).
        rewrite <- advance_0, advance_advance.
        destruct (IH (results_summary ++ [success_entry symbol])
                    (advance ((events_of (fetch_price_history symbol)
                                 ++ events_of (train_and_extract_params (price_source symbol)))
                                ++ evs1) (n1 + 0) w))
          as (evs & n & Hrun & Hest & Hsym).
        eexists _, _. rewrite Hrun, advance_advance. split; [|split].
        -- by rewrite <- app_assoc.
        -- rewrite !estimator_calls_app, Hfe, Hest1, Hest, app_nil_r. done.
        -- rewrite !stored_symbols_app, Hfs, Hts. simpl.
           apply Forall_app. split.
           ++ destruct Hsym1 as [->| ->]; [constructor|].
              apply Forall_singleton. exists symbol. repeat split; [|done].
              apply elem_of_cons. by left.
           ++ eapply Forall_impl; [exact Hsym|]. intros v (x & -> & Hin & Hx).
              exists x. repeat split; [|done]. apply elem_of_cons. by right.
      * rewrite deferred_iteration_failed by done. rewrite <- advance_0.
        destruct (IH results_summary
                    (advance (events_of (fetch_price_history symbol)
                                ++ events_of (train_and_extract_params (price_source symbol))
                                ++ [Log ERROR (training_failed_message symbol)]) 0 w))
          as (evs & n & Hrun & Hest & Hsym).
        eexists _, _. rewrite Hrun, advance_advance. split; [done|split].
        -- rewrite !estimator_calls_app, Hfe, Hest. simpl.
           unfold fitter_calls. by rewrite app_nil_r.
        -- rewrite !stored_symbols_app, Hfs, Hts. simpl.
           eapply Forall_impl; [exact Hsym|]. intros v (x & -> & Hin & Hx).
           exists x. repeat split; [|done]. apply elem_of_cons. by right.
    + assert (fit_succeeded symbol = false) as ->.
      { unfold fit_succeeded. by rewrite Hgate. }
      rewrite deferred_iteration_skipped by done. rewrite <- advance_0.
      destruct (IH results_summary
                  (advance (events_of (fetch_price_history symbol)
                              ++ [Log WARNING (skipped_message symbol)]) 0 w))
        as (evs & n & Hrun & Hest & Hsym).
      eexists _, _. rewrite Hrun, advance_advance. split; [done|split].
      -- rewrite !estimator_calls_app, Hfe, Hest. done.
      -- rewrite !stored_symbols_app, Hfs. simpl.
         eapply Forall_impl; [exact Hsym|]. intros v (x & -> & Hin & Hx).
         exists x. repeat split; [|done]. apply elem_of_cons. by right.
Qed.

(** **** The sufficiency gates *)

Lemma div_nan_is_nan p : PrimFloat.is_nan (PrimFloat.div p nan) = true.
Proof.
  unfold PrimFloat.is_nan. rewrite FloatAxioms.eqb_spec, FloatAxioms.div_spec.
  change (Prim2SF nan) with S754_nan.
  destruct (Prim2SF p); reflexivity.
Qed.

(** The return series is at least one observation shorter than the
    price series: the first price has no predecessor. *)
Lemma log_returns_length prices : length (log_returns prices) ≤ length prices - 1.
Proof.
  unfold log_returns. rewrite length_fmap.
  destruct prices as [|p ps]; [done|].
  unfold shift_1. cbn [length take zip_with fmap list_fmap List.filter].
  rewrite (np_log_nan _ (div_nan_is_nan p)). simpl negb. cbv iota.
  etransitivity; [apply List.filter_length_le|].
  rewrite length_fmap, length_zip_with. simpl. lia.
Qed.

Lemma without_keeps (P : string → bool) symbol symbols :
  P symbol = false →
  List.filter P (without symbol symbols) = List.filter P symbols.
Proof.
  intros HP. unfold without. induction symbols as [|x rest IH]; [done|].
  simpl. destruct (String.eqb_spec x symbol) as [->|Hne]; simpl.
  - by rewrite HP.
  - by rewrite IH.
Qed.

(** C5 (as the code has it): a symbol that passes the price-count gate
    but has fewer than 10 returns runs no estimator; its fit hands over
    the failure "Not enough return observations to train models", and
    both loops record it with the error log of a failed training, leave
    it out of their result and go on. *)
Theorem short_return_series_fails_training symbol :
  has_enough_prices symbol = true →
  length (log_returns (price_source symbol)) < 10 →
  model_fitter (price_source symbol)
  = failure "Not enough return observations to train models"
  ∧ fitter_calls symbol = []
  ∧ fit_succeeded symbol = false
  ∧ (∀ rest results_summary w,
        process_batch_loop (symbol :: rest) results_summary w
        = process_batch_loop rest results_summary
            (emit (events_of (fetch_price_history symbol)
                     ++ [Log ERROR ("Training failed for " +:+ symbol
                           +:+ ": Not enough return observations to train models")]) w))
  ∧ (∀ rest all_metrics w,
        process_batch_loop_sync (symbol :: rest) all_metrics w
        = process_batch_loop_sync rest all_metrics
            (emit (events_of (fetch_price_history symbol)
                     ++ [Log ERROR ("Training failed for " +:+ symbol
                           +:+ ": Not enough return observations to train models")]) w)).
Proof.
  intros Hgate Hlen.
  destruct (train_too_few_returns _ Hlen) as [Hfit Hevs].
  assert (fit_succeeded symbol = false) as Hfail.
  { unfold fit_succeeded. by rewrite Hgate, Hfit, failure_not_success. }
  assert (training_failed_message symbol
          = "Training failed for " +:+ symbol
              +:+ ": Not enough return observations to train models") as Hmsg.
  { unfold training_failed_message. rewrite Hfit.
    unfold failure, dict_get. by simplify_map_eq. }
  split; [done|]. split; [unfold fitter_calls; by rewrite Hevs|]. split; [done|].
  split.
  - intros rest results_summary w.
    rewrite deferred_iteration_failed by done. by rewrite Hevs, Hmsg.
  - intros rest all_metrics w.
    rewrite sync_iteration_failed by done. by rewrite Hevs, Hmsg.
Qed.

(** C6: a symbol for which the Price Source has fewer than 10
    observations (none included) is passed over by both loops with a
    warning only: its iteration runs no estimator and writes no row; the
    synchronous batch returns no record tagged with it, the deferred batch
    has no summary entry and no stored row for it, and in both modes the
    results and the estimator invocations are those of the symbol list
    with that symbol struck out. *)
Theorem short_price_history_never_trained symbol :
  length (price_source symbol) < 10 →
  (∀ rest all_metrics w, ∃ evs,
      estimator_calls evs = [] ∧ inserts evs = []
      ∧ process_batch_loop_sync (symbol :: rest) all_metrics w
        = process_batch_loop_sync rest all_metrics (emit evs w))
  ∧ (∀ rest results_summary w, ∃ evs,
      estimator_calls evs = [] ∧ inserts evs = []
      ∧ process_batch_loop (symbol :: rest) results_summary w
        = process_batch_loop rest results_summary (emit evs w))
  ∧ (∀ symbols w, ∃ records evs,
      process_batch_logic_sync symbols w = (Ok records, emit evs w)
      ∧ Forall (λ r : dict, r !! "symbol" ≠ Some (PyStr symbol)) records
      ∧ records = tagged <$> List.filter fit_succeeded (without symbol symbols)
      ∧ estimator_calls evs
        = flat_map fitter_calls (List.filter has_enough_prices (without symbol symbols)))
  ∧ (∀ symbols w, ∃ results_summary evs n,
      process_batch_loop symbols [] w = (Ok results_summary, advance evs n w)
      ∧ Forall (λ entry : dict, entry !! symbol = None) results_summary
      ∧ (PyStr symbol ∉ stored_symbols evs)
      ∧ results_summary
        = success_entry <$> List.filter fit_succeeded (without symbol symbols)
      ∧ estimator_calls evs
        = flat_map fitter_calls (List.filter has_enough_prices (without symbol symbols))).
Proof.
  intros Hshort.
  assert (has_enough_prices symbol = false) as Hgate.
  { unfold has_enough_prices. apply Nat.leb_gt. lia. }
  assert (fit_succeeded symbol = false) as Hfail.
  { unfold fit_succeeded. by rewrite Hgate. }
  destruct (fetch_events_quiet symbol) as (Hfe & Hfi & _).
  split; [|split; [|split]].
  - intros rest all_metrics w. eexists. split; [|split].
    3: by apply sync_iteration_skipped.
    + by rewrite estimator_calls_app, Hfe.
    + by rewrite inserts_app, Hfi.
  - intros rest results_summary w. eexists. split; [|split].
    3: by apply deferred_iteration_skipped.
    + by rewrite estimator_calls_app, Hfe.
    + by rewrite inserts_app, Hfi.
  - intros symbols w.
    destruct (process_batch_logic_sync_run symbols w) as (evs & Hrun & Hest & _).
    eexists _, _. split; [exact Hrun|]. split; [|split].
    + apply Forall_fmap, Forall_forall. intros x Hin.
      apply list_elem_of_In, List.filter_In in Hin as [_ Hx].
      simpl. rewrite tagged_symbol. intros [= ->]. congruence.
    + by rewrite without_keeps.
    + by rewrite without_keeps.
  - intros symbols w.
    destruct (process_batch_loop_run symbols [] w) as (evs & n & Hrun & Hest & Hsym).
    eexists _, _, _. split; [exact Hrun|]. split; [|split; [|split]].
    + apply Forall_fmap, Forall_forall. intros x Hin.
      apply list_elem_of_In, List.filter_In in Hin as [_ Hx].
      simpl. unfold success_entry. apply lookup_singleton_ne. congruence.
    + intros Hin. rewrite Forall_forall in Hsym.
      destruct (Hsym _ Hin) as (x & [= <-] & _ & Hx). congruence.
    + by rewrite without_keeps.
    + by rewrite without_keeps.
Qed.

(** C8: [save_model_results] always returns: whatever goes wrong in it
    ends as one error log, and a refused write is logged after the
    attempt; the summary of the deferred batch holds a "Success" entry
    for every symbol whose fit succeeded, in order, whatever the store
    answers, and the closing log counts exactly these. *)
Theorem persistence_is_best_effort symbols w :
  (∀ symbol metrics w0, ∃ evs n,
      save_model_results symbol metrics w0 = (Ok tt, advance evs n w0)
      ∧ (last evs = Some (Log INFO (stored_message symbol))
         ∨ ∃ e, last evs = Some (Log ERROR (save_error_message symbol e))))
  ∧ (∀ symbol metrics w0 ar_coeff ma_coeff garch_volatility e,
      clickhouse_get_client = Ok tt →
      value_of (resolve_metrics metrics) = Ok (ar_coeff, ma_coeff, garch_volatility) →
      (∀ data, client_insert "model_metrics" data metric_columns = Raise e) →
      save_model_results symbol metrics w0
      = (Ok tt,
         advance [Insert "model_metrics"
                    [[PyDatetime (clock (ticks w0)); PyStr symbol;
                      ar_coeff; ma_coeff; garch_volatility]] metric_columns;
                  Log ERROR (save_error_message symbol e)] 1 w0))
  ∧ (∃ evs n,
      process_batch_loop symbols [] w
      = (Ok (success_entry <$> List.filter fit_succeeded symbols), advance evs n w)
      ∧ process_batch_logic symbols w
        = (Ok tt,
           advance (evs ++ [Log INFO ("Batch complete. Processed "
                                        +:+ pretty (length (List.filter fit_succeeded symbols))
                                        +:+ " symbols.")]) n w)).
Proof.
  split; [|split].
  - intros symbol metrics w0.
    destruct (save_model_results_returns symbol metrics w0) as (evs & n & Hrun & _ & _ & Hlast).
    by eauto.
  - intros symbol metrics w0 ar_coeff ma_coeff garch_volatility e Hclient Hfields Hinsert.
    rewrite save_model_results_run, Hclient, Hfields. simpl. by rewrite Hinsert.
  - destruct (process_batch_loop_run symbols [] w) as (evs & n & Hrun & _).
    exists evs, n. split; [exact Hrun|].
    unfold process_batch_logic, bind, logger_info, tell. rewrite Hrun. simpl.
    rewrite length_fmap. rewrite <- advance_0, advance_advance.
    by rewrite Nat.add_0_l.
Qed.

(** **** The parameter normaliser *)

Lemma resolve_value metrics sub flat k1 k2 :
  value_of (resolve metrics (PyDict sub) flat k1 k2)
  = Ok (first_match [dict_get metrics flat; dict_get sub k1; dict_get sub k2]
          (PyFloat 0%float)).
Proof.
  unfold value_of, resolve, py_or, attr_get, bind, ret. simpl.
  destruct (truthy (dict_get metrics flat)); [done|]. simpl.
  destruct (truthy (dict_get sub k1)); [done|]. simpl.
  destruct (truthy (dict_get sub k2)); done.
Qed.



Lemma resolve_metrics_value metrics arma garch :
  dict_get_or metrics "arma" (PyDict ∅) = PyDict arma →
  dict_get_or metrics "garch" (PyDict ∅) = PyDict garch →
  value_of (resolve_metrics metrics)
  = Ok (first_match [dict_get metrics "ar_coeff";
                     dict_get arma "ar_coef"; dict_get arma "ar_coeff"] (PyFloat 0%float),
        first_match [dict_get metrics "ma_coeff";
                     dict_get arma "ma_coef"; dict_get arma "ma_coeff"] (PyFloat 0%float),
        first_match [dict_get metrics "garch_volatility";
                     dict_get garch "last_volatility"; dict_get garch "garch_volatility"]
          (PyFloat 0%float)).
Proof.
  intros Harma Hgarch. unfold value_of, resolve_metrics, bind, ret.
  rewrite Harma, Hgarch, !resolve_pure, !resolve_value. done.
Qed.

(** What a successful fit puts into the record, field by field. *)
Lemma model_fitter_fitted prices arma_params garch_params vol v :
  10 ≤ length (log_returns prices) →
  arima_fit_params (log_returns prices) = Ok arma_params →
  garch_fit (log_returns prices) = Ok (garch_params, vol) →
  last vol = Some v →
  model_fitter prices
  = <["garch_volatility" := PyFloat v]>
    (<["beta" := PyFloat (first_present garch_params ["beta[1]"; "beta"] 0%float)]>
    (<["alpha" := PyFloat (first_present garch_params ["alpha[1]"; "alpha"] 0%float)]>
    (<["omega" := PyFloat (first_present garch_params ["omega"] 0%float)]>
    (<["const" := PyFloat (first_present arma_params ["const"] 0%float)]>
    (<["ma_coeff" := PyFloat (first_present arma_params ["ma.L1"] 0%float)]>
    (<["ar_coeff" := PyFloat (first_present arma_params ["ar.L1"] 0%float)]>
       initial_results)))))).
Proof.
  intros Hlen Harima Hgarch Hlast.
  unfold model_fitter, value_of, train_and_extract_params.
  autounfold with monad_ops.
  destruct (Nat.ltb_spec (length (log_returns prices)) 10) as [Hlt|_]; [lia|].
  simpl. rewrite Harima. simpl. rewrite Hgarch. simpl.
  unfold iloc_last. rewrite Hlast. simpl.
  unfold params_get, first_present.
  repeat f_equal; by repeat case_match.
Qed.

Lemma first_match_numeric candidates :
  Forall (λ c, c = PyNone ∨ ∃ f, c = PyFloat f) candidates →
  ∃ f, first_match candidates (PyFloat 0%float) = PyFloat f.
Proof.
  induction 1 as [|c candidates [->|[f ->]] _ IH]; simpl.
  - by eexists.
  - done.
  - destruct (negb _); [by eexists|done].
Qed.

Lemma numeric_candidate (d : dict) k :
  d !! k = None ∨ (∃ f, d !! k = Some (PyFloat f)) →
  dict_get d k = PyNone ∨ ∃ f, dict_get d k = PyFloat f.
Proof. unfold dict_get. intros [->|[f ->]]; simpl; by eauto. Qed.

Lemma first_match_absent (metrics sub : dict) flat k1 k2 :
  metrics !! flat = None → sub !! k1 = None → sub !! k2 = None →
  first_match [dict_get metrics flat; dict_get sub k1; dict_get sub k2] (PyFloat 0%float)
  = PyFloat 0%float.
Proof. unfold dict_get. by intros -> -> ->. Qed.

Lemma flattened_lookups metrics arma garch :
  flattened metrics arma garch !! "arma" = None
  ∧ flattened metrics arma garch !! "garch" = None
  ∧ flattened metrics arma garch !! "ar_coeff" = carried arma "ar_coef" "ar_coeff"
  ∧ flattened metrics arma garch !! "ma_coeff" = carried arma "ma_coef" "ma_coeff"
  ∧ flattened metrics arma garch !! "garch_volatility"
    = carried garch "last_volatility" "garch_volatility".
Proof.
  unfold flattened, set_field.
  destruct (carried arma "ar_coef" "ar_coeff"),
           (carried arma "ma_coef" "ma_coeff"),
           (carried garch "last_volatility" "garch_volatility");
    repeat split; by simplify_map_eq.
Qed.

(** Three candidates of which only the nested ones are there resolve to
    what the carried value alone resolves to. *)
Lemma first_match_carried (sub : dict) k1 k2 :
  variants_agree sub k1 k2 →
  first_match [PyNone; dict_get sub k1; dict_get sub k2] (PyFloat 0%float)
  = first_match [default PyNone (carried sub k1 k2); PyNone; PyNone] (PyFloat 0%float).
Proof.
  unfold variants_agree, carried, dict_get. intros Hagree. simpl.
  destruct (sub !! k1) as [x|] eqn:H1; simpl.
  - destruct (truthy x) eqn:Hx; [done|].
    destruct (sub !! k2) as [y|] eqn:H2; simpl; [|done].
    rewrite <- (Hagree x y eq_refl eq_refl), Hx. done.
  - destruct (sub !! k2) as [y|]; simpl; [|done].
    by destruct (truthy y).
Qed.

(** C2 (as the code has it): the normalisation of [save_model_results]
    resolves three fields, ar_coeff, ma_coeff and garch_volatility: all
    0.0 for the empty mapping and, for every mapping whose "arma" and
    "garch" entries are mappings where present and whose candidate
    values are floats, three floats, each 0.0 when none of its keys is
    there; the row written holds these three under ar_param, ma_param and
    volatility next to the timestamp and the symbol, and nothing of
    const, omega, alpha and beta.  The record of seven fields is the one
    a successful fit builds, every field a float: each of the six read
    from the estimators' coefficients is 0.0 when its coefficient is
    missing, and garch_volatility is the last conditional volatility. *)
Theorem normalizer_resolves_three_fields :
  value_of (resolve_metrics ∅)
  = Ok (PyFloat 0%float, PyFloat 0%float, PyFloat 0%float)
  ∧ (∀ metrics arma garch,
      dict_get_or metrics "arma" (PyDict ∅) = PyDict arma →
      dict_get_or metrics "garch" (PyDict ∅) = PyDict garch →
      numeric_at metrics ["ar_coeff"; "ma_coeff"; "garch_volatility"] →
      numeric_at arma ["ar_coef"; "ar_coeff"; "ma_coef"; "ma_coeff"] →
      numeric_at garch ["last_volatility"; "garch_volatility"] →
      ∃ a m v : float,
        value_of (resolve_metrics metrics) = Ok (PyFloat a, PyFloat m, PyFloat v)
        ∧ (metrics !! "ar_coeff" = None → arma !! "ar_coef" = None →
           arma !! "ar_coeff" = None → a = 0%float)
        ∧ (metrics !! "ma_coeff" = None → arma !! "ma_coef" = None →
           arma !! "ma_coeff" = None → m = 0%float)
        ∧ (metrics !! "garch_volatility" = None → garch !! "last_volatility" = None →
           garch !! "garch_volatility" = None → v = 0%float)
        ∧ (∀ symbol w, clickhouse_get_client = Ok tt →
             ∃ written logged,
               save_model_results symbol metrics w
               = (Ok tt, advance [written; logged] 1 w)
               ∧ written
                 = Insert "model_metrics"
                     [[PyDatetime (clock (ticks w)); PyStr symbol;
                       PyFloat a; PyFloat m; PyFloat v]] metric_columns
               ∧ dom (stored_record written) = list_to_set metric_columns))
  ∧ (∀ prices arma_params garch_params vol v,
      10 ≤ length (log_returns prices) →
      arima_fit_params (log_returns prices) = Ok arma_params →
      garch_fit (log_returns prices) = Ok (garch_params, vol) →
      last vol = Some v →
      fitted_record (model_fitter prices)
      ∧ model_fitter prices !! "garch_volatility" = Some (PyFloat v)
      ∧ (arma_params !! "ar.L1" = None →
         model_fitter prices !! "ar_coeff" = Some (PyFloat 0%float))
      ∧ (arma_params !! "ma.L1" = None →
         model_fitter prices !! "ma_coeff" = Some (PyFloat 0%float))
      ∧ (arma_params !! "const" = None →
         model_fitter prices !! "const" = Some (PyFloat 0%float))
      ∧ (garch_params !! "omega" = None →
         model_fitter prices !! "omega" = Some (PyFloat 0%float))
      ∧ (garch_params !! "alpha[1]" = None → garch_params !! "alpha" = None →
         model_fitter prices !! "alpha" = Some (PyFloat 0%float))
      ∧ (garch_params !! "beta[1]" = None → garch_params !! "beta" = None →
         model_fitter prices !! "beta" = Some (PyFloat 0%float))
      ∧ (arma_params = ∅ → garch_params = ∅ →
         model_fitter prices = <["garch_volatility" := PyFloat v]> initial_results)).
Proof.
  split; [|split].
  - rewrite (resolve_metrics_value ∅ ∅ ∅); done.
  - intros metrics arma garch Harma Hgarch Hm Ha Hg.
    rewrite (resolve_metrics_value _ _ _ Harma Hgarch).
    unfold numeric_at in *.
    repeat (let H := fresh "Hm" in apply Forall_cons in Hm as [H Hm]).
    repeat (let H := fresh "Ha" in apply Forall_cons in Ha as [H Ha]).
    repeat (let H := fresh "Hg" in apply Forall_cons in Hg as [H Hg]).
    destruct (first_match_numeric
                [dict_get metrics "ar_coeff"; dict_get arma "ar_coef";
                 dict_get arma "ar_coeff"]) as [a Ea].
    { repeat (apply Forall_cons; split; [by apply numeric_candidate|]). constructor. }
    destruct (first_match_numeric
                [dict_get metrics "ma_coeff"; dict_get arma "ma_coef";
                 dict_get arma "ma_coeff"]) as [m Em].
    { repeat (apply Forall_cons; split; [by apply numeric_candidate|]). constructor. }
    destruct (first_match_numeric
                [dict_get metrics "garch_volatility"; dict_get garch "last_volatility";
                 dict_get garch "garch_volatility"]) as [v Ev].
    { repeat (apply Forall_cons; split; [by apply numeric_candidate|]). constructor. }
    exists a, m, v. rewrite Ea, Em, Ev. split; [done|].
    split; [|split; [|split]].
    + intros H1 H2 H3. rewrite first_match_absent in Ea by done. by injection Ea.
    + intros H1 H2 H3. rewrite first_match_absent in Em by done. by injection Em.
    + intros H1 H2 H3. rewrite first_match_absent in Ev by done. by injection Ev.
    + intros symbol w Hclient.
      rewrite save_model_results_run, Hclient,
        (resolve_metrics_value _ _ _ Harma Hgarch), Ea, Em, Ev.
      simpl. destruct (client_insert _ _ _) as [[]|e]; eexists _, _;
        (split; [reflexivity|]); (split; [reflexivity|]);
        simpl; by rewrite !dom_insert_L, dom_empty_L.
  - intros prices arma_params garch_params vol v Hlen Harima Hgarch Hlast.
    split; [|split; [|split; [|split; [|split; [|split; [|split; [|split]]]]]]].
    + apply model_fitter_success.
      rewrite (model_fitter_fitted _ _ _ _ _ Hlen Harima Hgarch Hlast).
      unfold dict_get, initial_results. by simplify_map_eq.
    + rewrite (model_fitter_fitted _ _ _ _ _ Hlen Harima Hgarch Hlast).
      by simplify_map_eq.
    + intros Hmiss. rewrite (model_fitter_fitted _ _ _ _ _ Hlen Harima Hgarch Hlast).
      unfold first_present. rewrite Hmiss. by simplify_map_eq.
    + intros Hmiss. rewrite (model_fitter_fitted _ _ _ _ _ Hlen Harima Hgarch Hlast).
      unfold first_present. rewrite Hmiss. by simplify_map_eq.
    + intros Hmiss. rewrite (model_fitter_fitted _ _ _ _ _ Hlen Harima Hgarch Hlast).
      unfold first_present. rewrite Hmiss. by simplify_map_eq.
    + intros Hmiss. rewrite (model_fitter_fitted _ _ _ _ _ Hlen Harima Hgarch Hlast).
      unfold first_present. rewrite Hmiss. by simplify_map_eq.
    + intros Hmiss1 Hmiss2.
      rewrite (model_fitter_fitted _ _ _ _ _ Hlen Harima Hgarch Hlast).
      unfold first_present. rewrite Hmiss1, Hmiss2. by simplify_map_eq.
    + intros Hmiss1 Hmiss2.
      rewrite (model_fitter_fitted _ _ _ _ _ Hlen Harima Hgarch Hlast).
      unfold first_present. rewrite Hmiss1, Hmiss2. by simplify_map_eq.
    + intros -> ->.
      rewrite (model_fitter_fitted _ _ _ _ _ Hlen Harima Hgarch Hlast).
      unfold first_present, initial_results. rewrite !lookup_empty.
      apply map_eq. intros k.
      repeat (rewrite lookup_insert; case_decide; [done|]). done.
Qed.


(** C4: an input that gives its coefficients in nested form only, under
    "arma" and "garch", is normalised to the same three fields as the
    flattened input that carries the same values under the flattened
    keys. *)
Theorem nested_equals_flattened metrics arma garch :
  nested_only metrics arma garch →
  value_of (resolve_metrics metrics)
  = value_of (resolve_metrics (flattened metrics arma garch)).
Proof.
  intros (Harma & Hgarch & Hf1 & Hf2 & Hf3 & Ha1 & Ha2 & Ha3).
  destruct (flattened_lookups metrics arma garch) as (Fa & Fg & F1 & F2 & F3).
  rewrite (resolve_metrics_value metrics arma garch)
    by (unfold dict_get_or; by rewrite ?Harma, ?Hgarch).
  rewrite (resolve_metrics_value (flattened metrics arma garch) ∅ ∅)
    by (unfold dict_get_or; by rewrite ?Fa, ?Fg).
  unfold dict_get at 1 4 7 10 13 16. rewrite Hf1, Hf2, Hf3, F1, F2, F3.
  unfold dict_get at 7 8 9 10 11 12. rewrite !lookup_empty. cbn [default].
  by rewrite !first_match_carried.
Qed.

(** *** Further properties of the code *)

(** **** Fetching and fitting *)

Lemma failed_fetch_no_prices symbol e :
  clickhouse_get_client = Raise e
  ∨ clickhouse_get_client = Ok tt
    ∧ (client_query (price_query symbol) = Raise e
       ∨ ∃ rows, client_query (price_query symbol) = Ok rows ∧ first_column rows = Raise e) →
  price_source symbol = []
  ∧ last (events_of (fetch_price_history symbol))
    = Some (Log ERROR ("Error fetching data for " +:+ symbol +:+ ": " +:+ str_exn e)).
Proof.
  unfold price_source, value_of, events_of, fetch_price_history.
  autounfold with monad_ops.
  intros [->|[-> [->|(rows & -> & Hrows)]]]; simpl; [done|done|].
  by rewrite Hrows.
Qed.

(** X1: a fetch that fails, whether the connection, the query or a row
    of the answer, hands the loops an empty price list and one error log;
    both loops then pass the symbol over exactly as one without data: the
    deferred loop with the warning "No price data found.", the synchronous
    one with "Insufficient price data.". *)
Theorem failed_fetch_skipped_as_no_data symbol e :
  clickhouse_get_client = Raise e
  ∨ clickhouse_get_client = Ok tt
    ∧ (client_query (price_query symbol) = Raise e
       ∨ ∃ rows, client_query (price_query symbol) = Ok rows ∧ first_column rows = Raise e) →
  price_source symbol = []
  ∧ last (events_of (fetch_price_history symbol))
    = Some (Log ERROR ("Error fetching data for " +:+ symbol +:+ ": " +:+ str_exn e))
  ∧ (∀ rest results_summary w,
       process_batch_loop (symbol :: rest) results_summary w
       = process_batch_loop rest results_summary
           (emit (events_of (fetch_price_history symbol)
                    ++ [Log WARNING ("Skipping " +:+ symbol +:+ ": No price data found.")])
              w))
  ∧ (∀ rest all_metrics w,
       process_batch_loop_sync (symbol :: rest) all_metrics w
       = process_batch_loop_sync rest all_metrics
           (emit (events_of (fetch_price_history symbol)
                    ++ [Log WARNING ("Skipping " +:+ symbol +:+ ": Insufficient price data.")])
              w)).
Proof.
  intros Hfail. destruct (failed_fetch_no_prices _ _ Hfail) as [Hnone Hlog].
  assert (has_enough_prices symbol = false) as Hgate.
  { unfold has_enough_prices. by rewrite Hnone. }
  split; [done|]. split; [done|]. split.
  - intros rest results_summary w. rewrite deferred_iteration_skipped by done.
    unfold skipped_message. by rewrite Hnone.
  - intros rest all_metrics w. by rewrite sync_iteration_skipped.
Qed.

(** X2: ten prices or fewer never train: they leave fewer than 10
    returns, so the fit hands over the failure of the length check and no
    estimator runs.  A symbol with exactly 10 prices therefore passes the
    price-count gate of the loops and fails in the fit. *)
Theorem ten_prices_never_train :
  (∀ prices,
     length prices ≤ 10 →
     length (log_returns prices) < 10
     ∧ model_fitter prices = failure "Not enough return observations to train models"
     ∧ events_of (train_and_extract_params prices) = [])
  ∧ (∀ symbol,
       length (price_source symbol) = 10 →
       has_enough_prices symbol = true ∧ fit_succeeded symbol = false).
Proof.
  assert (∀ prices, length prices ≤ 10 → length (log_returns prices) < 10) as Hshort.
  { intros prices Hle. pose proof (log_returns_length prices).
    destruct prices; simpl in *; lia. }
  split.
  - intros prices Hle. split; [by apply Hshort|].
    apply train_too_few_returns. by apply Hshort.
  - intros symbol Hten.
    assert (has_enough_prices symbol = true) as Hgate.
    { unfold has_enough_prices. by rewrite Hten. }
    split; [done|]. unfold fit_succeeded. rewrite Hgate. simpl.
    destruct (train_too_few_returns (price_source symbol)) as [-> _].
    + apply Hshort. lia.
    + apply failure_not_success.
Qed.

(** X3: the fit runs the estimators in a fixed discipline: none on fewer
    than 10 returns; otherwise ARIMA first, and GARCH only once ARIMA has
    returned, both on the same return series. *)
Theorem estimators_run_in_order prices :
  events_of (train_and_extract_params prices)
  = if length (log_returns prices) <? 10 then []
    else match arima_fit_params (log_returns prices) with
         | Raise _ => [ArimaFit (log_returns prices)]
         | Ok _ => [ArimaFit (log_returns prices); GarchFit (log_returns prices)]
         end.
Proof.
  unfold events_of, train_and_extract_params.
  autounfold with monad_ops.
  destruct (length (log_returns prices) <? 10); simpl; [done|].
  destruct (arima_fit_params _) as [arma_params|e]; simpl; [|done].
  destruct (garch_fit _) as [[garch_params vol]|e]; simpl; [|done].
  destruct (iloc_last vol) as [v|e]; done.
Qed.

(** **** From the fit to the store *)

Lemma first_match_flat_float x :
  first_match [PyFloat x; PyNone; PyNone] (PyFloat 0%float) = PyFloat (or_zero x).
Proof. unfold or_zero. simpl. by destruct (PrimFloat.eqb x 0%float). Qed.

Lemma fit_result_resolves prices :
  truthy (dict_get (model_fitter prices) "success") = true →
  ∃ a m v,
    model_fitter prices !! "ar_coeff" = Some (PyFloat a)
    ∧ model_fitter prices !! "ma_coeff" = Some (PyFloat m)
    ∧ model_fitter prices !! "garch_volatility" = Some (PyFloat v)
    ∧ model_fitter prices !! "arma" = None
    ∧ model_fitter prices !! "garch" = None
    ∧ value_of (resolve_metrics (model_fitter prices))
      = Ok (PyFloat (or_zero a), PyFloat (or_zero m), PyFloat (or_zero v)).
Proof.
  intros Hok. destruct (model_fitter_success _ Hok) as (_ & Hfields & Hdom).
  assert (∀ k, k ∉ "success" :: coefficient_fields → model_fitter prices !! k = None)
    as Hnone.
  { intros k Hk. apply not_elem_of_dom. rewrite Hdom. by rewrite elem_of_list_to_set. }
  assert (model_fitter prices !! "arma" = None) as Harma.
  { apply Hnone. unfold coefficient_fields. rewrite !elem_of_cons, elem_of_nil.
    intuition discriminate. }
  assert (model_fitter prices !! "garch" = None) as Hgarch.
  { apply Hnone. unfold coefficient_fields. rewrite !elem_of_cons, elem_of_nil.
    intuition discriminate. }
  unfold coefficient_fields in Hfields.
  repeat (let H := fresh "Hf" in apply Forall_cons in Hfields as [H Hfields]).
  destruct Hf as [a Ha], Hf0 as [m Hm], Hf5 as [v Hv].
  exists a, m, v. repeat (split; [done|]).
  rewrite (resolve_metrics_value _ ∅ ∅)
    by (unfold dict_get_or; by rewrite ?Harma, ?Hgarch).
  unfold dict_get. rewrite Ha, Hm, Hv, !lookup_empty. simpl default.
  by rewrite !first_match_flat_float.
Qed.

(** X4: what the store is handed for a successful fit are the fit's own
    ar_coeff, ma_coeff and garch_volatility; the nested fallback keys are
    never consulted, and a zero of either sign is written as 0.0. *)
Theorem fit_result_stored_as_is prices :
  truthy (dict_get (model_fitter prices) "success") = true →
  ∃ a m v,
    model_fitter prices !! "ar_coeff" = Some (PyFloat a)
    ∧ model_fitter prices !! "ma_coeff" = Some (PyFloat m)
    ∧ model_fitter prices !! "garch_volatility" = Some (PyFloat v)
    ∧ model_fitter prices !! "arma" = None
    ∧ model_fitter prices !! "garch" = None
    ∧ value_of (resolve_metrics (model_fitter prices))
      = Ok (PyFloat (or_zero a), PyFloat (or_zero m), PyFloat (or_zero v)).
Proof. apply fit_result_resolves. Qed.

Lemma save_model_results_shape symbol metrics w :
  ∃ evs n,
    save_model_results symbol metrics w = (Ok tt, advance evs n w)
    ∧ n = length (inserts evs)
    ∧ n ≤ 1
    ∧ queries evs = []
    ∧ estimator_calls evs = []
    ∧ Forall (λ ev, ∃ a m v,
                value_of (resolve_metrics metrics) = Ok (a, m, v)
                ∧ ev = Insert "model_metrics"
                         [[PyDatetime (clock (ticks w)); PyStr symbol; a; m; v]]
                         metric_columns)
        (inserts evs)
    ∧ (inserts evs = []
       ↔ clickhouse_get_client ≠ Ok tt
         ∨ ∃ e, value_of (resolve_metrics metrics) = Raise e).
Proof.
  rewrite save_model_results_run.
  destruct clickhouse_get_client as [[]|e].
  - destruct (value_of (resolve_metrics metrics))
      as [[[ar_coeff ma_coeff] garch_volatility]|e].
    + simpl. destruct (client_insert _ _ _) as [[]|e]; eexists _, _;
        (split; [reflexivity|]); simpl; repeat split; try done; try lia;
        try (apply Forall_singleton; by eauto);
        intros [?|[? ?]]; done.
    + eexists _, _. split; [reflexivity|]. simpl. repeat split; try done; try lia.
      intros _. right. by eexists.
  - eexists _, _. split; [reflexivity|]. simpl. repeat split; try done; try lia.
    intros _. by left.
Qed.

(** X5: one call of [save_model_results] attempts at most one insert: a
    single row into model_metrics whose five cells, the time of the
    call, the symbol and the three resolved fields, line up with the
    five column names; it reads the clock exactly when it attempts the
    insert, sends no query, runs no estimator, and attempts nothing
    exactly when the connection fails or the resolution raises. *)
Theorem save_writes_one_row_or_nothing symbol metrics w :
  ∃ evs n,
    save_model_results symbol metrics w = (Ok tt, advance evs n w)
    ∧ n = length (inserts evs)
    ∧ n ≤ 1
    ∧ queries evs = []
    ∧ estimator_calls evs = []
    ∧ Forall (λ ev, ∃ a m v,
                value_of (resolve_metrics metrics) = Ok (a, m, v)
                ∧ ev = Insert "model_metrics"
                         [[PyDatetime (clock (ticks w)); PyStr symbol; a; m; v]]
                         metric_columns)
        (inserts evs)
    ∧ (inserts evs = []
       ↔ clickhouse_get_client ≠ Ok tt
         ∨ ∃ e, value_of (resolve_metrics metrics) = Raise e).
Proof. apply save_model_results_shape. Qed.

(** **** Whole batches *)

Lemma fetch_queries symbol :
  queries (events_of (fetch_price_history symbol))
  = match clickhouse_get_client with
    | Ok _ => [Query (price_query symbol)]
    | Raise _ => []
    end.
Proof.
  unfold events_of, fetch_price_history.
  autounfold with monad_ops.
  destruct clickhouse_get_client as [[]|e]; simpl; [|done].
  destruct (client_query _) as [rows|e]; simpl; [|done].
  destruct (first_column rows) as [prices|e]; done.
Qed.

Lemma train_queries prices :
  queries (events_of (train_and_extract_params prices)) = [].
Proof.
  unfold events_of, train_and_extract_params.
  autounfold with monad_ops.
  destruct (length (log_returns prices) <? 10); simpl; [done|].
  destruct (arima_fit_params _) as [arma_params|e]; simpl; [|done].
  destruct (garch_fit _) as [[garch_params vol]|e]; simpl; [|done].
  destruct (iloc_last vol) as [v|e]; done.
Qed.

Lemma queries_app evs1 evs2 : queries (evs1 ++ evs2) = queries evs1 ++ queries evs2.
Proof. apply List.filter_app. Qed.

(** The queries of the whole deferred loop. *)
Lemma process_batch_loop_queries symbols results_summary w :
  ∃ evs n,
    process_batch_loop symbols results_summary w
    = (Ok (results_summary ++ (success_entry <$> List.filter fit_succeeded symbols)),
       advance evs n w)
    ∧ queries evs = flat_map (λ symbol, queries (events_of (fetch_price_history symbol)))
                      symbols.
Proof.
  revert results_summary w.
  induction symbols as [|symbol rest IH]; intros results_summary w.
  - exists [], 0. simpl. unfold ret. by rewrite advance_0, emit_nil, app_nil_r.
  - pose proof (train_queries (price_source symbol)) as Htq.
    simpl List.filter. simpl flat_map.
    destruct (fit_succeeded symbol) eqn:Hfit.
    + rewrite deferred_iteration_success by done. unfold bind.
      destruct (save_model_results_shape symbol (model_fitter (price_source symbol))
                  (emit (events_of (fetch_price_history symbol)
                           ++ events_of (train_and_extract_params (price_source symbol))) w))
        as (evs1 & n1 & -> & _ & _ & Hq1 & _).
      rewrite <- advance_0, advance_advance.
      destruct (IH (results_summary ++ [success_entry symbol])
                  (advance ((events_of (fetch_price_history symbol)
                               ++ events_of (train_and_extract_params (price_source symbol)))
                              ++ evs1) (n1 + 0) w))
        as (evs & n & Hrun & Hq).
      eexists _, _. rewrite Hrun, advance_advance. split; [by rewrite <- app_assoc|].
      by rewrite !queries_app, Htq, Hq1, Hq, !app_nil_r.
    + destruct (has_enough_prices symbol) eqn:Hgate.
      * rewrite deferred_iteration_failed by done. rewrite <- advance_0.
        destruct (IH results_summary
                    (advance (events_of (fetch_price_history symbol)
                                ++ events_of (train_and_extract_params (price_source symbol))
                                ++ [Log ERROR (training_failed_message symbol)]) 0 w))
          as (evs & n & Hrun & Hq).
        eexists _, _. rewrite Hrun, advance_advance. split; [done|].
        rewrite !queries_app, Htq, Hq. simpl. by rewrite app_nil_r.
      * rewrite deferred_iteration_skipped by done. rewrite <- advance_0.
        destruct (IH results_summary
                    (advance (events_of (fetch_price_history symbol)
                                ++ [Log WARNING (skipped_message symbol)]) 0 w))
          as (evs & n & Hrun & Hq).
        eexists _, _. rewrite Hrun, advance_advance. split; [done|].
        rewrite !queries_app, Hq. simpl. by rewrite app_nil_r.
Qed.

Lemma process_batch_loop_sync_queries symbols all_metrics w :
  ∃ evs,
    process_batch_loop_sync symbols all_metrics w
    = (Ok (all_metrics ++ (tagged <$> List.filter fit_succeeded symbols)), emit evs w)
    ∧ queries evs = flat_map (λ symbol, queries (events_of (fetch_price_history symbol)))
                      symbols.
Proof.
  revert all_metrics w. induction symbols as [|symbol rest IH]; intros all_metrics w.
  - exists []. simpl. unfold ret. by rewrite emit_nil, app_nil_r.
  - pose proof (train_queries (price_source symbol)) as Htq.
    simpl List.filter. simpl flat_map.
    destruct (fit_succeeded symbol) eqn:Hfit.
    + rewrite sync_iteration_success by done.
      destruct (IH (all_metrics ++ [tagged symbol])
                  (emit (events_of (fetch_price_history symbol)
                           ++ events_of (train_and_extract_params (price_source symbol))) w))
        as (evs & Hrun & Hq).
      eexists. rewrite Hrun, emit_emit. split; [by rewrite <- app_assoc|].
      by rewrite !queries_app, Htq, Hq, app_nil_r.
    + destruct (has_enough_prices symbol) eqn:Hgate.
      * rewrite sync_iteration_failed by done.
        destruct (IH all_metrics
                    (emit (events_of (fetch_price_history symbol)
                             ++ events_of (train_and_extract_params (price_source symbol))
                             ++ [Log ERROR (training_failed_message symbol)]) w))
          as (evs & Hrun & Hq).
        eexists. rewrite Hrun, emit_emit. split; [done|].
        rewrite !queries_app, Htq, Hq. simpl. by rewrite app_nil_r.
      * rewrite sync_iteration_skipped by done.
        destruct (IH all_metrics
                    (emit (events_of (fetch_price_history symbol)
                             ++ [Log WARNING ("Skipping " +:+ symbol
                                                +:+ ": Insufficient price data.")]) w))
          as (evs & Hrun & Hq).
        eexists. rewrite Hrun, emit_emit. split; [done|].
        rewrite !queries_app, Hq. simpl. by rewrite app_nil_r.
Qed.

Lemma fetch_queries_batch (symbols : list string) :
  flat_map (λ symbol, queries (events_of (fetch_price_history symbol))) symbols
  = match clickhouse_get_client with
    | Ok _ => (λ symbol, Query (price_query symbol)) <$> symbols
    | Raise _ => []
    end.
Proof.
  induction symbols as [|symbol rest IH]; simpl.
  - by destruct clickhouse_get_client.
  - rewrite IH, fetch_queries. by destruct clickhouse_get_client.
Qed.

(** X7: the two modes fit the same symbols: started anywhere, the
    synchronous batch returns a record for exactly the symbols for which
    the deferred batch enters "Success" in its summary, in the same
    order, and both invoke the estimators on the same series in the same
    order. *)
Theorem both_modes_fit_the_same_symbols symbols w1 w2 :
  ∃ fitted records results_summary evs1 evs2 n,
    process_batch_logic_sync symbols w1 = (Ok records, emit evs1 w1)
    ∧ process_batch_loop symbols [] w2 = (Ok results_summary, advance evs2 n w2)
    ∧ (λ r : dict, r !! "symbol") <$> records = (λ symbol, Some (PyStr symbol)) <$> fitted
    ∧ results_summary = success_entry <$> fitted
    ∧ length records = length results_summary
    ∧ estimator_calls evs1 = estimator_calls evs2.
Proof.
  destruct (process_batch_logic_sync_run symbols w1) as (evs1 & Hrun1 & Hest1 & _).
  destruct (process_batch_loop_run symbols [] w2) as (evs2 & n & Hrun2 & Hest2 & _).
  exists (List.filter fit_succeeded symbols),
    (tagged <$> List.filter fit_succeeded symbols),
    (success_entry <$> List.filter fit_succeeded symbols), evs1, evs2, n.
  split; [exact Hrun1|]. split; [exact Hrun2|]. split; [|split; [|split]].
  - clear. induction (List.filter fit_succeeded symbols) as [|symbol l IH]; [done|].
    rewrite !fmap_cons. f_equal; [apply tagged_symbol|apply IH].
  - done.
  - by rewrite !length_fmap.
  - by rewrite Hest1, Hest2.
Qed.

(** X8: symbols are processed independently of one another: the records
    of a symbol list put together from two lists are the records of the
    first followed by the records of the second, wherever the three
    batches start, and so are the estimator invocations. *)
Theorem sync_batch_splits symbols1 symbols2 w w1 w2 :
  ∃ records1 records2 evs evs1 evs2,
    process_batch_logic_sync symbols1 w1 = (Ok records1, emit evs1 w1)
    ∧ process_batch_logic_sync symbols2 w2 = (Ok records2, emit evs2 w2)
    ∧ process_batch_logic_sync (symbols1 ++ symbols2) w
      = (Ok (records1 ++ records2), emit evs w)
    ∧ estimator_calls evs = estimator_calls evs1 ++ estimator_calls evs2.
Proof.
  destruct (process_batch_logic_sync_run symbols1 w1) as (evs1 & Hrun1 & Hest1 & _).
  destruct (process_batch_logic_sync_run symbols2 w2) as (evs2 & Hrun2 & Hest2 & _).
  destruct (process_batch_logic_sync_run (symbols1 ++ symbols2) w) as (evs & Hrun & Hest & _).
  eexists _, _, evs, evs1, evs2.
  split; [exact Hrun1|]. split; [exact Hrun2|]. split.
  - by rewrite Hrun, List.filter_app, fmap_app.
  - by rewrite Hest, Hest1, Hest2, List.filter_app, flat_map_app.
Qed.

(** X9: a batch asks the Price Source for every symbol of the list, once
    each and in the order of the list, whatever became of the symbols
    before it, in both modes; without a connection it sends no query at
    all. *)
Theorem every_symbol_queried_once symbols w :
  (∃ records evs,
     process_batch_loop_sync symbols [] w = (Ok records, emit evs w)
     ∧ queries evs
       = match clickhouse_get_client with
         | Ok _ => (λ symbol, Query (price_query symbol)) <$> symbols
         | Raise _ => []
         end)
  ∧ (∃ results_summary evs n,
       process_batch_loop symbols [] w = (Ok results_summary, advance evs n w)
       ∧ queries evs
         = match clickhouse_get_client with
           | Ok _ => (λ symbol, Query (price_query symbol)) <$> symbols
           | Raise _ => []
           end).
Proof.
  split.
  - destruct (process_batch_loop_sync_queries symbols [] w) as (evs & Hrun & Hq).
    eexists _, evs. split; [exact Hrun|]. by rewrite Hq, fetch_queries_batch.
  - destruct (process_batch_loop_queries symbols [] w) as (evs & n & Hrun & Hq).
    eexists _, evs, n. split; [exact Hrun|]. by rewrite Hq, fetch_queries_batch.
Qed.

(** **** Reading the latest metrics *)

Lemma get_latest_metrics_run symbol w :
  get_latest_metrics symbol w
  = match clickhouse_get_client with
    | Raise e => (Ok PyNone, emit [Log ERROR (latest_error_message symbol e)] w)
    | Ok _ =>
        match client_query_rows (latest_query symbol) with
        | Raise e =>
            (Ok PyNone,
             emit [Query (latest_query symbol);
                   Log ERROR (latest_error_message symbol e)] w)
        | Ok [] => (Ok PyNone, emit [Query (latest_query symbol)] w)
        | Ok ((c0 :: c1 :: c2 :: c3 :: _) :: _) =>
            (Ok (PyDict (latest_record symbol c0 c1 c2 c3)),
             emit [Query (latest_query symbol)] w)
        | Ok (_ :: _) =>
            (Ok PyNone,
             emit [Query (latest_query symbol);
                   Log ERROR (latest_error_message symbol
                                (PyException "IndexError" "tuple index out of range"))] w)
        end
    end.
Proof.
  unfold get_latest_metrics, latest_error_message, latest_record.
  autounfold with monad_ops.
  destruct clickhouse_get_client as [[]|e]; simpl; [|done].
  destruct (client_query_rows _) as [rows|e]; simpl; [|by norm_world].
  destruct rows as [|row rows]; [done|].
  rewrite bool_decide_eq_false_2 by done. simpl.
  destruct row as [|c0 [|c1 [|c2 [|c3 cells]]]]; simpl; by norm_world.
Qed.

(** X10: [get_latest_metrics] always returns, and its answer comes from
    the first row alone: with four cells or more in that row it is the
    dictionary of the symbol asked for and the first four cells, further
    cells and rows playing no part; without rows it is [None] and nothing
    is logged; with a shorter first row, a failed query or a failed
    connection it is [None] after one error log.  It writes nothing. *)
Theorem latest_metrics_from_first_row symbol w :
  (∃ data evs,
     get_latest_metrics symbol w = (Ok data, emit evs w)
     ∧ inserts evs = []
     ∧ (data = PyNone ∨ ∃ c0 c1 c2 c3, data = PyDict (latest_record symbol c0 c1 c2 c3)))
  ∧ (∀ c0 c1 c2 c3 cells rows,
       clickhouse_get_client = Ok tt →
       client_query_rows (latest_query symbol)
       = Ok ((c0 :: c1 :: c2 :: c3 :: cells) :: rows) →
       get_latest_metrics symbol w
       = (Ok (PyDict (latest_record symbol c0 c1 c2 c3)),
          emit [Query (latest_query symbol)] w))
  ∧ (clickhouse_get_client = Ok tt →
     client_query_rows (latest_query symbol) = Ok [] →
     get_latest_metrics symbol w = (Ok PyNone, emit [Query (latest_query symbol)] w))
  ∧ (∀ row rows,
       clickhouse_get_client = Ok tt →
       client_query_rows (latest_query symbol) = Ok (row :: rows) →
       length row < 4 →
       ∃ e, get_latest_metrics symbol w
            = (Ok PyNone,
               emit [Query (latest_query symbol);
                     Log ERROR (latest_error_message symbol e)] w))
  ∧ (∀ e,
       clickhouse_get_client = Raise e
       ∨ clickhouse_get_client = Ok tt
         ∧ client_query_rows (latest_query symbol) = Raise e →
       ∃ evs,
         get_latest_metrics symbol w
         = (Ok PyNone, emit (evs ++ [Log ERROR (latest_error_message symbol e)]) w)).
Proof.
  rewrite get_latest_metrics_run.
  split; [|split; [|split; [|split]]].
  - destruct clickhouse_get_client as [[]|e]; [|by eauto 10].
    destruct (client_query_rows _) as [rows|e]; [|by eauto 10].
    destruct rows as [|[|c0 [|c1 [|c2 [|c3 cells]]]] rows]; by eauto 10.
  - by intros c0 c1 c2 c3 cells rows -> ->.
  - by intros -> ->.
  - intros row rows -> -> Hlen.
    destruct row as [|c0 [|c1 [|c2 [|c3 cells]]]]; try by eexists.
    simpl in Hlen. lia.
  - intros e [->|[-> ->]].
    + by exists [].
    + by exists [Query (latest_query symbol)].
Qed.

(** X11: [GET /results/{symbol}] answers with the envelope of the latest
    metrics when the first row of the query has its four cells, and with
    the error 404 "No model data found" in every other case, a failed
    connection or query included; it raises nothing else. *)
Theorem model_results_404_or_success symbol w :
  (∀ c0 c1 c2 c3 cells rows,
     clickhouse_get_client = Ok tt →
     client_query_rows (latest_query symbol)
     = Ok ((c0 :: c1 :: c2 :: c3 :: cells) :: rows) →
     get_model_results symbol w
     = (Ok (<["data" := PyDict (latest_record symbol c0 c1 c2 c3)]>
            (<["status" := PyStr "success"]> ∅)),
        emit [Query (latest_query symbol)] w))
  ∧ ((¬ ∃ c0 c1 c2 c3 cells rows,
          clickhouse_get_client = Ok tt
          ∧ client_query_rows (latest_query symbol)
            = Ok ((c0 :: c1 :: c2 :: c3 :: cells) :: rows)) →
     ∃ evs,
       get_model_results symbol w
       = (Raise (HTTPException 404 ("No model data found for " +:+ symbol +:+ ".")),
          emit evs w))
  ∧ (∃ answer evs,
       get_model_results symbol w = (answer, emit evs w)
       ∧ (answer = Raise (HTTPException 404 ("No model data found for " +:+ symbol +:+ "."))
          ∨ ∃ response, answer = Ok response)).
Proof.
  unfold get_model_results, bind, raise, ret. rewrite get_latest_metrics_run.
  split; [|split].
  - intros c0 c1 c2 c3 cells rows -> ->. simpl.
    unfold latest_record. rewrite bool_decide_eq_false_2; [done|].
    intros Hempty. apply (f_equal (λ d : dict, d !! "symbol")) in Hempty.
    by simplify_map_eq.
  - intros Hnone.
    destruct clickhouse_get_client as [[]|e]; [|by eexists].
    destruct (client_query_rows _) as [rows|e]; [|by eexists].
    destruct rows as [|[|c0 [|c1 [|c2 [|c3 cells]]]] rows]; try by eexists.
    destruct Hnone. by eauto 10.
  - destruct clickhouse_get_client as [[]|e]; [|by eauto 10].
    destruct (client_query_rows _) as [rows|e]; [|by eauto 10].
    destruct rows as [|[|c0 [|c1 [|c2 [|c3 cells]]]] rows]; by eauto 10.
Qed.

(** X12: the columns of the write and of the read fit together: every
    column [get_latest_metrics] selects is one [save_model_results]
    writes, and when the query answers with the selected columns of the
    row a save has written, the latest metrics of the symbol are the three
    fields that save resolved and the time it read, under the keys
    ar_coeff, ma_coeff, garch_volatility and calculated_at. *)
Theorem stored_row_read_back symbol metrics ar_coeff ma_coeff garch_volatility w :
  clickhouse_get_client = Ok tt →
  value_of (resolve_metrics metrics) = Ok (ar_coeff, ma_coeff, garch_volatility) →
  ∃ written logged,
    save_model_results symbol metrics w = (Ok tt, advance [written; logged] 1 w)
    ∧ Forall (λ column, column ∈ dom (stored_record written)) latest_columns
    ∧ ∀ rows w',
        client_query_rows (latest_query symbol)
        = Ok (select_columns latest_columns (stored_record written) :: rows) →
        get_latest_metrics symbol w'
        = (Ok (PyDict (latest_record symbol ar_coeff ma_coeff garch_volatility
                         (PyDatetime (clock (ticks w))))),
           emit [Query (latest_query symbol)] w').
Proof.
  intros Hclient Hfields.
  rewrite save_model_results_run, Hclient, Hfields. cbv zeta.
  assert (Forall (λ column,
                      column ∈ dom (stored_record
                        (Insert "model_metrics"
                           [[PyDatetime (clock (ticks w)); PyStr symbol;
                             ar_coeff; ma_coeff; garch_volatility]] metric_columns)))
              latest_columns
            ∧ ∀ rows w',
                client_query_rows (latest_query symbol)
                = Ok (select_columns latest_columns
                        (stored_record
                           (Insert "model_metrics"
                              [[PyDatetime (clock (ticks w)); PyStr symbol;
                                ar_coeff; ma_coeff; garch_volatility]] metric_columns))
                      :: rows) →
                get_latest_metrics symbol w'
                = (Ok (PyDict (latest_record symbol ar_coeff ma_coeff garch_volatility
                                 (PyDatetime (clock (ticks w))))),
                   emit [Query (latest_query symbol)] w')) as Hread.
  { split.
    - unfold latest_columns. simpl stored_record.
      repeat (apply Forall_cons; split;
              [apply elem_of_dom; eexists; by simplify_map_eq|]).
      constructor.
    - intros rows w' Hquery.
      rewrite get_latest_metrics_run, Hclient, Hquery.
      unfold select_columns, latest_columns, dict_get. simpl stored_record.
      simpl fmap. by simplify_map_eq. }
  destruct (client_insert _ _ _) as [[]|e]; eexists _, _;
    (split; [reflexivity|]); exact Hread.
Qed.

(** **** The trace of a synchronous batch *)

Lemma process_batch_loop_sync_trace symbols all_metrics w :
  process_batch_loop_sync symbols all_metrics w
  = (Ok (all_metrics ++ (tagged <$> List.filter fit_succeeded symbols)),
     emit (flat_map sync_events symbols) w).
Proof.
  revert all_metrics w. induction symbols as [|symbol rest IH]; intros all_metrics w.
  - simpl. unfold ret. by rewrite emit_nil, app_nil_r.
  - simpl List.filter. simpl flat_map. unfold sync_events at 1.
    destruct (fit_succeeded symbol) eqn:Hfit.
    + rewrite sync_iteration_success, IH, emit_emit by done.
      unfold fit_succeeded in Hfit. apply andb_true_iff in Hfit as [-> Hok].
      rewrite Hok. simpl. by rewrite <- ?app_assoc, ?app_nil_r.
    + destruct (has_enough_prices symbol) eqn:Hgate.
      * rewrite sync_iteration_failed, IH, emit_emit by done.
        unfold fit_succeeded in Hfit. rewrite Hgate in Hfit. simpl in Hfit.
        rewrite Hfit. simpl. by rewrite <- ?app_assoc.
      * rewrite sync_iteration_skipped, IH, emit_emit by done.
        by rewrite <- ?app_assoc.
Qed.

(** X13: the trace of a synchronous batch is made of the traces of its
    symbols, in the order of the list: for each symbol its fetch, then
    either the one warning of a skipped symbol or its fit, followed by
    the one error log of a failed fit; nothing is logged for a record
    returned.  One info line closes the batch, stating the number of
    records returned. *)
Theorem sync_trace_is_per_symbol symbols w :
  process_batch_logic_sync symbols w
  = (Ok (tagged <$> List.filter fit_succeeded symbols),
     emit (flat_map sync_events symbols
             ++ [Log INFO ("Batch complete. Processed "
                             +:+ pretty (length (List.filter fit_succeeded symbols))
                             +:+ " symbols.")]) w).
Proof.
  unfold process_batch_logic_sync, bind, logger_info, tell, ret.
  rewrite process_batch_loop_sync_trace. simpl.
  by rewrite emit_emit, length_fmap.
Qed.

End Service.

(** ** The service on the concrete environment *)

Abbreviation demo_prices := (price_source Demo.get_client Demo.query).
Abbreviation demo_fitter := (model_fitter Demo.log Demo.arima Demo.garch).
Abbreviation demo_batch insert :=
  (process_batch_logic Demo.get_client Demo.query insert Demo.clock
     Demo.log Demo.arima Demo.garch).
Abbreviation demo_save insert :=
  (save_model_results Demo.get_client insert Demo.clock).


(** C5 on the concrete environment: EDGE has 10 prices and 9 returns. *)
Lemma short_return_series_fails_training_witness :
  has_enough_prices Demo.get_client Demo.query "EDGE" = true
  ∧ length (log_returns Demo.log (demo_prices "EDGE")) < 10
  ∧ demo_fitter (demo_prices "EDGE")
    = failure "Not enough return observations to train models"
  ∧ fitter_calls Demo.get_client Demo.query Demo.log Demo.arima Demo.garch "EDGE" = []
  ∧ fit_succeeded Demo.get_client Demo.query Demo.log Demo.arima Demo.garch "EDGE" = false.
Proof.
  assert (has_enough_prices Demo.get_client Demo.query "EDGE" = true) as Hgate
    by (vm_compute; reflexivity).
  assert (length (log_returns Demo.log (demo_prices "EDGE")) < 10) as Hlen
    by (vm_compute; lia).
  split; [exact Hgate|]. split; [exact Hlen|].
  destruct (short_return_series_fails_training Demo.get_client Demo.query
              Demo.insert_ok Demo.clock Demo.log Demo.arima Demo.garch
              "EDGE" Hgate Hlen)
    as (Hfit & Hcalls & Hfail & _).
  done.
Defined.

(** The claim C5 does not hold as stated: EDGE passes the price-count
    gate with 10 prices, has 9 returns, and the deferred batch records it
    with the error log of a failed training, not with the warning of a
    skipped symbol. *)
Lemma ten_prices_recorded_as_training_failure :
  length (demo_prices "EDGE") = 10
  ∧ length (log_returns Demo.log (demo_prices "EDGE")) = 9
  ∧ events_of (demo_batch Demo.insert_ok ["EDGE"])
    = [Query "SELECT price FROM stock_prices WHERE symbol = 'EDGE' ORDER BY timestamp ASC";
       Log ERROR "Training failed for EDGE: Not enough return observations to train models";
       Log INFO "Batch complete. Processed 0 symbols."]
  ∧ recorded_as_skipped "EDGE" (events_of (demo_batch Demo.insert_ok ["EDGE"])) = false
  ∧ recorded_as_training_failure "EDGE" (events_of (demo_batch Demo.insert_ok ["EDGE"]))
    = true.
Proof. vm_compute. repeat split. Qed.

(** C6 on the concrete environment: ZZZZ has 5 prices. *)
Lemma short_price_history_never_trained_witness :
  length (demo_prices "ZZZZ") < 10
  ∧ ∃ records evs,
      process_batch_logic_sync Demo.get_client Demo.query Demo.log Demo.arima Demo.garch
        ["AAPL"; "ZZZZ"] initial_world
      = (Ok records, emit evs initial_world)
      ∧ Forall (λ r : dict, r !! "symbol" ≠ Some (PyStr "ZZZZ")) records.
Proof.
  assert (length (demo_prices "ZZZZ") < 10) as Hshort by (vm_compute; lia).
  split; [exact Hshort|].
  destruct (short_price_history_never_trained Demo.get_client Demo.query
              Demo.insert_ok Demo.clock Demo.log Demo.arima Demo.garch "ZZZZ" Hshort)
    as (_ & _ & Hsync & _).
  destruct (Hsync ["AAPL"; "ZZZZ"] initial_world) as (records & evs & Hrun & Hnone & _).
  by exists records, evs.
Defined.

(** C8 on the concrete environment: the store refuses the write of the
    metrics of AAPL; the refusal is logged and the call returns. *)
Lemma persistence_is_best_effort_witness :
  Demo.get_client = Ok tt
  ∧ value_of (resolve_metrics (demo_fitter (demo_prices "AAPL")))
    = Ok (PyFloat 0.5%float, PyFloat (-0.25)%float, PyFloat 1.25%float)
  ∧ (∀ data, Demo.insert_fails "model_metrics" data metric_columns
             = Raise (PyException "DatabaseError" "table is read-only"))
  ∧ demo_save Demo.insert_fails "AAPL" (demo_fitter (demo_prices "AAPL")) initial_world
    = (Ok tt,
       advance [Insert "model_metrics"
                  [[PyDatetime (Demo.clock 0); PyStr "AAPL"; PyFloat 0.5%float;
                    PyFloat (-0.25)%float; PyFloat 1.25%float]] metric_columns;
                Log ERROR (save_error_message "AAPL"
                             (PyException "DatabaseError" "table is read-only"))]
         1 initial_world).
Proof.
  assert (value_of (resolve_metrics (demo_fitter (demo_prices "AAPL")))
          = Ok (PyFloat 0.5%float, PyFloat (-0.25)%float, PyFloat 1.25%float))
    as Hfields by (vm_compute; reflexivity).
  split; [reflexivity|]. split; [exact Hfields|]. split; [reflexivity|].
  destruct (persistence_is_best_effort Demo.get_client Demo.query Demo.insert_fails
              Demo.clock Demo.log Demo.arima Demo.garch ["AAPL"] initial_world)
    as (_ & Hrefused & _).
  apply (Hrefused "AAPL" _ initial_world _ _ _
           (PyException "DatabaseError" "table is read-only")
           eq_refl Hfields (λ _, eq_refl)).
Defined.

(** The claim C2 does not hold as stated.  The fit of AAPL has all seven
    fields, and what the normalisation of [save_model_results] makes of
    it is the row of the timestamp, the symbol and three values: const,
    omega, alpha and beta are in no column.  For the empty mapping the
    row holds the three defaults.  On a mapping whose "arma" entry is a
    number the normalisation raises. *)
Lemma normalizer_output_has_three_fields :
  Forall (λ k, is_Some (demo_fitter (demo_prices "AAPL") !! k)) coefficient_fields
  ∧ events_of (demo_save Demo.insert_ok "AAPL" (demo_fitter (demo_prices "AAPL")))
    = [Insert "model_metrics"
         [[PyDatetime 1700000000; PyStr "AAPL"; PyFloat 0.5%float;
           PyFloat (-0.25)%float; PyFloat 1.25%float]]
         ["timestamp"; "symbol"; "ar_param"; "ma_param"; "volatility"];
       Log INFO "Stored metrics for AAPL in ClickHouse."]
  ∧ events_of (demo_save Demo.insert_ok "AAPL" ∅)
    = [Insert "model_metrics"
         [[PyDatetime 1700000000; PyStr "AAPL"; PyFloat 0%float;
           PyFloat 0%float; PyFloat 0%float]]
         ["timestamp"; "symbol"; "ar_param"; "ma_param"; "volatility"];
       Log INFO "Stored metrics for AAPL in ClickHouse."]
  ∧ (∀ written,
       In written (events_of (demo_save Demo.insert_ok "AAPL"
                                (demo_fitter (demo_prices "AAPL")))) →
       ¬ Forall (λ k, is_Some (stored_record written !! k)) coefficient_fields)
  ∧ value_of (resolve_metrics {[ "arma" := PyFloat 1%float ]})
    = Raise (PyException "AttributeError" "'float' object has no attribute 'get'").
Proof.
  split; [|split; [|split; [|split]]].
  - unfold coefficient_fields.
    repeat (apply Forall_cons; split; [vm_compute; by eexists|]). constructor.
  - vm_compute. reflexivity.
  - vm_compute. reflexivity.
  - intros written Hin Hall.
    apply Forall_inv_tail, Forall_inv_tail, Forall_inv in Hall.
    revert Hin Hall. vm_compute.
    intros [<-|[<-|[]]] [x Hx]; discriminate Hx.
  - vm_compute. reflexivity.
Qed.

(** C2 as amended, on the concrete environment. *)
Lemma normalizer_resolves_three_fields_witness :
  dict_get_or Demo.nested_metrics "arma" (PyDict ∅)
  = PyDict (<["ar_coef" := PyFloat 0.5%float]> (<["ma_coef" := PyFloat (-0.25)%float]> ∅))
  ∧ ∃ a m v : float,
      value_of (resolve_metrics Demo.nested_metrics)
      = Ok (PyFloat a, PyFloat m, PyFloat v).
Proof.
  split; [vm_compute; reflexivity|].
  destruct (normalizer_resolves_three_fields Demo.get_client Demo.insert_ok Demo.clock
              Demo.log Demo.arima Demo.garch)
    as (_ & Htotal & _).
  destruct (Htotal Demo.nested_metrics
              (<["ar_coef" := PyFloat 0.5%float]> (<["ma_coef" := PyFloat (-0.25)%float]> ∅))
              (<["last_volatility" := PyFloat 1.25%float]> ∅))
    as (a & m & v & Hvalue & _).
  - vm_compute; reflexivity.
  - vm_compute; reflexivity.
  - unfold numeric_at. repeat (apply Forall_cons; split; [left; vm_compute; reflexivity|]).
    constructor.
  - unfold numeric_at.
    apply Forall_cons; split; [right; eexists; vm_compute; reflexivity|].
    apply Forall_cons; split; [left; vm_compute; reflexivity|].
    apply Forall_cons; split; [right; eexists; vm_compute; reflexivity|].
    apply Forall_cons; split; [left; vm_compute; reflexivity|]. constructor.
  - unfold numeric_at.
    apply Forall_cons; split; [right; eexists; vm_compute; reflexivity|].
    apply Forall_cons; split; [left; vm_compute; reflexivity|]. constructor.
  - by exists a, m, v.
Defined.



(** C4 on the concrete environment. *)
Lemma nested_equals_flattened_witness :
  value_of (resolve_metrics Demo.nested_metrics)
  = value_of (resolve_metrics
                (<["ar_coeff" := PyFloat 0.5%float]>
                 (<["ma_coeff" := PyFloat (-0.25)%float]>
                 (<["garch_volatility" := PyFloat 1.25%float]>
                 (<["success" := PyBool true]> ∅))))).
Proof.
  etransitivity.
  - apply (nested_equals_flattened Demo.nested_metrics
             (<["ar_coef" := PyFloat 0.5%float]> (<["ma_coef" := PyFloat (-0.25)%float]> ∅))
             (<["last_volatility" := PyFloat 1.25%float]> ∅)).
    unfold nested_only, variants_agree.
    repeat split; try (vm_compute; reflexivity);
      intros x y Hx Hy; vm_compute in Hy; discriminate Hy.
  - vm_compute. reflexivity.
Defined.

(** C10 on the concrete environment: the fit of AAPL succeeds and its
    record is returned. *)
Lemma sync_record_is_fitter_result_witness :
  fit_succeeded Demo.get_client Demo.query Demo.log Demo.arima Demo.garch "AAPL" = true
  ∧ ∃ records w',
      process_batch_logic_sync Demo.get_client Demo.query Demo.log Demo.arima Demo.garch
        ["ZZZZ"; "AAPL"; "XYZ"] initial_world
      = (Ok records, w')
      ∧ <["symbol" := PyStr "AAPL"]> (demo_fitter (demo_prices "AAPL")) ∈ records.
Proof.
  assert (fit_succeeded Demo.get_client Demo.query Demo.log Demo.arima Demo.garch "AAPL"
          = true) as Hfit by (vm_compute; reflexivity).
  split; [exact Hfit|].
  destruct (sync_record_is_fitter_result Demo.get_client Demo.query Demo.log Demo.arima
              Demo.garch ["ZZZZ"; "AAPL"; "XYZ"] initial_world)
    as (records & w' & Hrun & _ & Hall & _).
  exists records, w'. split; [exact Hrun|].
  apply Hall; [|exact Hfit].
  apply elem_of_cons. right. apply elem_of_cons. by left.
Defined.

(** ** The further properties on the concrete environment *)

Abbreviation demo_latest :=
  (get_latest_metrics Demo.get_client Demo.latest_rows).

Lemma demo_log_nan x : PrimFloat.is_nan x = true → PrimFloat.is_nan (Demo.log x) = true.
Proof. intros Hnan. unfold Demo.log. by rewrite Hnan. Qed.

(** X1 on the concrete environment: the query for DOWN fails. *)
Lemma failed_fetch_skipped_as_no_data_witness :
  Demo.query (price_query "DOWN")
  = Raise (PyException "OperationalError" "connection refused")
  ∧ demo_prices "DOWN" = []
  ∧ last (events_of (fetch_price_history Demo.get_client Demo.query "DOWN"))
    = Some (Log ERROR ("Error fetching data for " +:+ "DOWN" +:+ ": "
                         +:+ "connection refused")).
Proof.
  assert (Demo.query (price_query "DOWN")
          = Raise (PyException "OperationalError" "connection refused")) as Hquery
    by (vm_compute; reflexivity).
  split; [exact Hquery|].
  destruct (failed_fetch_skipped_as_no_data Demo.get_client Demo.query Demo.insert_ok
              Demo.clock Demo.log Demo.arima Demo.garch "DOWN"
              (PyException "OperationalError" "connection refused"))
    as (Hnone & Hlog & _).
  - right. split; [reflexivity|]. left. exact Hquery.
  - split; [exact Hnone|exact Hlog].
Defined.

(** X2 on the concrete environment: the ten prices of EDGE. *)
Lemma ten_prices_never_train_witness :
  length (demo_prices "EDGE") = 10
  ∧ has_enough_prices Demo.get_client Demo.query "EDGE" = true
  ∧ fit_succeeded Demo.get_client Demo.query Demo.log Demo.arima Demo.garch "EDGE" = false.
Proof.
  assert (length (demo_prices "EDGE") = 10) as Hten by (vm_compute; reflexivity).
  split; [exact Hten|].
  destruct (ten_prices_never_train Demo.get_client Demo.query Demo.log Demo.arima
              Demo.garch demo_log_nan) as [_ Hgate].
  exact (Hgate "EDGE" Hten).
Defined.

(** X4 on the concrete environment: the fit of AAPL. *)
Lemma fit_result_stored_as_is_witness :
  truthy (dict_get (demo_fitter (demo_prices "AAPL")) "success") = true
  ∧ ∃ a m v,
      value_of (resolve_metrics (demo_fitter (demo_prices "AAPL")))
      = Ok (PyFloat (or_zero a), PyFloat (or_zero m), PyFloat (or_zero v)).
Proof.
  assert (truthy (dict_get (demo_fitter (demo_prices "AAPL")) "success") = true) as Hok
    by (vm_compute; reflexivity).
  split; [exact Hok|].
  destruct (fit_result_stored_as_is Demo.log Demo.arima Demo.garch
              (demo_prices "AAPL") Hok) as (a & m & v & _ & _ & _ & _ & _ & Hvalue).
  by exists a, m, v.
Defined.

(** X10 on the concrete environment: two rows are stored, the first one
    is handed over. *)
Lemma latest_metrics_from_first_row_witness :
  Demo.get_client = Ok tt
  ∧ demo_latest "AAPL" initial_world
    = (Ok (PyDict (latest_record "AAPL" (PyFloat 0.5%float) (PyFloat (-0.25)%float)
                     (PyFloat 1.25%float) (PyDatetime 1700000000))),
       emit [Query (latest_query "AAPL")] initial_world).
Proof.
  split; [reflexivity|].
  destruct (latest_metrics_from_first_row Demo.get_client Demo.latest_rows
              "AAPL" initial_world) as (_ & Hfirst & _).
  apply (Hfirst _ _ _ _ [] [[PyFloat 0.25%float; PyFloat 0%float; PyFloat 1%float;
                             PyDatetime 1600000000]]); reflexivity.
Defined.

(** X11 on the concrete environment: with rows the envelope, with a
    failing query the error 404. *)
Lemma model_results_404_or_success_witness :
  (∃ response evs,
     get_model_results Demo.get_client Demo.latest_rows "AAPL" initial_world
     = (Ok response, emit evs initial_world))
  ∧ ∃ evs,
      get_model_results Demo.get_client
        (λ _, Raise (PyException "OperationalError" "connection refused"))
        "AAPL" initial_world
      = (Raise (HTTPException 404 "No model data found for AAPL."), emit evs initial_world).
Proof.
  split.
  - destruct (model_results_404_or_success Demo.get_client Demo.latest_rows
                "AAPL" initial_world) as (Hfound & _).
    eexists _, _.
    apply (Hfound (PyFloat 0.5%float) (PyFloat (-0.25)%float) (PyFloat 1.25%float)
             (PyDatetime 1700000000) []
             [[PyFloat 0.25%float; PyFloat 0%float; PyFloat 1%float;
               PyDatetime 1600000000]]); reflexivity.
  - destruct (model_results_404_or_success Demo.get_client
                (λ _, Raise (PyException "OperationalError" "connection refused"))
                "AAPL" initial_world) as (_ & Hnone & _).
    apply Hnone. intros (c0 & c1 & c2 & c3 & cells & rows & _ & Hrows). discriminate Hrows.
Defined.

(** X12 on the concrete environment: the metrics of AAPL are saved and
    the stored rows of the environment begin with the row written. *)
Lemma stored_row_read_back_witness :
  Demo.get_client = Ok tt
  ∧ value_of (resolve_metrics (demo_fitter (demo_prices "AAPL")))
    = Ok (PyFloat 0.5%float, PyFloat (-0.25)%float, PyFloat 1.25%float)
  ∧ ∃ written logged,
      demo_save Demo.insert_ok "AAPL" (demo_fitter (demo_prices "AAPL")) initial_world
      = (Ok tt, advance [written; logged] 1 initial_world)
      ∧ Demo.latest_rows (latest_query "AAPL")
        = Ok (select_columns latest_columns (stored_record written)
              :: [[PyFloat 0.25%float; PyFloat 0%float; PyFloat 1%float;
                   PyDatetime 1600000000]])
      ∧ demo_latest "AAPL" initial_world
        = (Ok (PyDict (latest_record "AAPL" (PyFloat 0.5%float) (PyFloat (-0.25)%float)
                         (PyFloat 1.25%float) (PyDatetime (Demo.clock 0)))),
           emit [Query (latest_query "AAPL")] initial_world).
Proof.
  assert (value_of (resolve_metrics (demo_fitter (demo_prices "AAPL")))
          = Ok (PyFloat 0.5%float, PyFloat (-0.25)%float, PyFloat 1.25%float))
    as Hfields by (vm_compute; reflexivity).
  split; [reflexivity|]. split; [exact Hfields|].
  destruct (stored_row_read_back Demo.get_client Demo.latest_rows Demo.insert_ok
              Demo.clock "AAPL" _ _ _ _ initial_world eq_refl Hfields)
    as (written & logged & Hsave & _ & Hread).
  exists written, logged. split; [exact Hsave|].
  assert (Demo.latest_rows (latest_query "AAPL")
          = Ok (select_columns latest_columns (stored_record written)
                :: [[PyFloat 0.25%float; PyFloat 0%float; PyFloat 1%float;
                     PyDatetime 1600000000]])) as Hrows.
  { revert Hsave. rewrite save_model_results_run. vm_compute.
    intros [= <- _]. reflexivity. }
  split; [exact Hrows|]. exact (Hread _ initial_world Hrows).
Defined.
